(** * AIBanner: the banner-generation function

    A shallow embedding of the serverless function of the repository
    (source file part_000, lines 1-255: [extractWebpageContent],
    [generateBannerWithAI] and the exported [handler]; the file goes on with
    an earlier variant of the same three functions, which the specification
    does not follow), and the properties the specification states of it.

    Conventions.  A JavaScript string is a sequence of 16-bit code units;
    this development covers the strings whose code units are below 256 and
    writes them as Stdlib strings, one [ascii] per code unit.  The external
    collaborators (JSON.parse, the URL constructor, node-fetch, cheerio, the
    generation client) are the fields of a [Runtime] record: every theorem
    holds for every behaviour of theirs.  The client object built at module
    scope (line 19) is outside the three functions and is not modelled. *)

From Stdlib Require Import String Ascii List Bool Arith ZArith Lia.
From Stdlib Require Import DecimalString.
From Stdlib Require SpecFloat.
Import ListNotations.
Local Open Scope string_scope.
Local Open Scope nat_scope.

(* ================================================================== *)
(** ** JavaScript string and array primitives used by the source *)
(* ================================================================== *)

Module Js.

Definition code (c : ascii) : nat := nat_of_ascii c.

Definition between (lo hi : nat) (c : ascii) : bool :=
  (lo <=? code c) && (code c <=? hi).

(** [String.prototype.toLowerCase], code units below 256: A-Z, and the
    Latin-1 capitals U+00C0..U+00DE except the multiplication sign. *)
Definition toLowerCaseChar (c : ascii) : ascii :=
  if between 65 90 c || (between 192 222 c && negb (code c =? 215))
  then ascii_of_nat (code c + 32) else c.

Fixpoint toLowerCase (s : string) : string :=
  match s with
  | EmptyString => EmptyString
  | String c s' => String (toLowerCaseChar c) (toLowerCase s')
  end.

(** WhiteSpace and LineTerminator code units below 256
    (TAB, LF, VT, FF, CR, SP, NBSP). *)
Definition isWhiteSpace (c : ascii) : bool :=
  between 9 13 c || (code c =? 32) || (code c =? 160).

Fixpoint trimStart (s : string) : string :=
  match s with
  | EmptyString => EmptyString
  | String c s' => if isWhiteSpace c then trimStart s' else s
  end.

(** [trimEnd] drops the trailing run of white space: a character is kept
    when it is not white space or when something is kept after it. *)
Fixpoint trimEnd (s : string) : string :=
  match s with
  | EmptyString => EmptyString
  | String c s' =>
      match trimEnd s' with
      | EmptyString => if isWhiteSpace c then EmptyString else String c EmptyString
      | r => String c r
      end
  end.

Definition trim (s : string) : string := trimEnd (trimStart s).

(** The string behind its first [n] code units. *)
Fixpoint drop (n : nat) (s : string) : string :=
  match n, s with
  | S n', String _ s' => drop n' s'
  | _, _ => s
  end.

(** [s.substring(0, n)] *)
Definition substring0 (n : nat) (s : string) : string := substring 0 n s.

(** [a.slice(0, n)] *)
Definition slice0 {A} (n : nat) (a : list A) : list A := firstn n a.

(** [a.includes(x)] on an array of strings *)
Definition includes (a : list string) (x : string) : bool :=
  existsb (String.eqb x) a.

(** [[...new Set(a)]]: the distinct elements in first-insertion order;
    strings are compared code unit by code unit (SameValueZero). *)
Fixpoint setInsertAll (seen : list string) (a : list string) : list string :=
  match a with
  | [] => []
  | x :: a' =>
      if includes seen x then setInsertAll seen a'
      else x :: setInsertAll (x :: seen) a'
  end.

Definition newSetSpread (a : list string) : list string := setInsertAll [] a.

(** [s.split(sep)] for a separator of one code unit. *)
Fixpoint split (sep : ascii) (s : string) : list string :=
  match s with
  | EmptyString => [EmptyString]
  | String c s' =>
      if Ascii.eqb c sep then EmptyString :: split sep s'
      else
        match split sep s' with
        | piece :: rest => String c piece :: rest
        | [] => [String c EmptyString]
        end
  end.

(** [s.replace(pat, rep)] with a string pattern: the first occurrence. *)
Fixpoint replaceFirst (pat rep s : string) : string :=
  match s with
  | EmptyString => if prefix pat s then rep else s
  | String c s' =>
      if prefix pat s then rep ++ drop (String.length pat) s
      else String c (replaceFirst pat rep s')
  end.

(** Case-insensitive comparison of code units, as the [i] flag has it
    on the code units covered here. *)
Definition eqCI (a b : ascii) : bool :=
  Ascii.eqb (toLowerCaseChar a) (toLowerCaseChar b).

Fixpoint prefixCI (p s : string) : bool :=
  match p, s with
  | EmptyString, _ => true
  | String a p', String b s' => eqCI a b && prefixCI p' s'
  | String _ _, EmptyString => false
  end.

(** [s.includes(sub)] *)
Fixpoint stringIncludes (sub s : string) : bool :=
  prefix sub s
  || match s with
     | EmptyString => false
     | String _ s' => stringIncludes sub s'
     end.

(** [x || y] on strings: the empty string is the only falsy string. *)
Definition truthy (s : string) : bool :=
  match s with EmptyString => false | _ => true end.

End Js.

(* ================================================================== *)
(** ** Color extraction (part_000, lines 62-72) *)
(* ================================================================== *)

Module Colors.

Definition isHexDigit (c : ascii) : bool :=
  Js.between 48 57 c || Js.between 65 70 c || Js.between 97 102 c.

(** [[0-9a-fA-F]{k}] at the head of [s]: the [k] digits consumed. *)
Fixpoint hexDigits (k : nat) (s : string) : option string :=
  match k with
  | 0 => Some EmptyString
  | S k' =>
      match s with
      | String c s' =>
          if isHexDigit c then option_map (String c) (hexDigits k' s') else None
      | EmptyString => None
      end
  end.

(** [#[0-9a-fA-F]{k}] at the head of [s]. *)
Definition hexColor (k : nat) (s : string) : option string :=
  match s with
  | String "#" s' => option_map (String "#") (hexDigits k s')
  | _ => None
  end.

(** [[^)]*\)] at the head of [s]: everything up to and including the first
    closing parenthesis.  The class [[^)]] cannot step over a parenthesis,
    so the greedy run has a single way to be followed by [\)]. *)
Fixpoint throughParen (s : string) : option string :=
  match s with
  | EmptyString => None
  | String c s' =>
      if Ascii.eqb c ")" then Some ")"
      else option_map (String c) (throughParen s')
  end.

(** [name\([^)]+\)] at the head of [s], for [name] = rgb or rgba: the run
    inside the parentheses has at least one character. *)
Definition funcColor (name : string) (s : string) : option string :=
  let open := name ++ "(" in
  if prefix open s then
    match throughParen (Js.drop (String.length open) s) with
    | Some r => if 2 <=? String.length r then Some (open ++ r) else None
    | None => None
    end
  else None.

Definition firstSome (x y : option string) : option string :=
  match x with Some _ => x | None => y end.

(** One attempt of
    [/#[0-9a-fA-F]{6}|#[0-9a-fA-F]{3}|rgb\([^)]+\)|rgba\([^)]+\)/]
    at the head of [s]; the alternatives are tried left to right. *)
Definition colorAt (s : string) : option string :=
  firstSome (hexColor 6 s)
    (firstSome (hexColor 3 s)
       (firstSome (funcColor "rgb" s) (funcColor "rgba" s))).

(** The global scan of [String.prototype.match] with the [g] flag: after a
    match the scan resumes behind it ([skip] counts the code units of the
    match still to step over), otherwise one code unit further. *)
Fixpoint scan (skip : nat) (s : string) : list string :=
  match s with
  | EmptyString => []
  | String _ s' =>
      match skip with
      | S k => scan k s'
      | 0 =>
          match colorAt s with
          | Some tok => tok :: scan (String.length tok - 1) s'
          | None => scan 0 s'
          end
      end
  end.

(** [styleContent.match(/.../g)]: [None] is JavaScript's [null]. *)
Definition colorMatches (styleContent : string) : option (list string) :=
  match scan 0 styleContent with
  | [] => None
  | l => Some l
  end.

Definition blocklist : list string :=
  ["#000"; "#fff"; "#ffffff"; "#000000"; "rgb(0,0,0)"; "rgb(255,255,255)"].

Definition uniqueColors (matches : list string) : list string :=
  Js.slice0 3
    (filter (fun color => negb (Js.includes blocklist (Js.toLowerCase color)))
       (Js.newSetSpread matches)).

(** [extractedColors] of [extractWebpageContent], from the text of the
    style elements. *)
Definition extractedColors (styleContent : string) : list string :=
  match colorMatches styleContent with
  | Some matches => ([] ++ uniqueColors matches)%list
  | None => []
  end.

(** What the specification calls pure black and pure white "in both hex
    and functional form" (these two definitions follow the specification's
    words, not the source): the literal, white space removed and
    lower-cased, is one of the hex or functional spellings of the two
    colors. *)
Fixpoint removeSpaces (s : string) : string :=
  match s with
  | EmptyString => EmptyString
  | String c s' =>
      if Js.isWhiteSpace c then removeSpaces s' else String c (removeSpaces s')
  end.

Definition denotesPureBlackOrWhite (color : string) : bool :=
  Js.includes
    ["#000"; "#000000"; "#fff"; "#ffffff";
     "rgb(0,0,0)"; "rgb(255,255,255)";
     "rgba(0,0,0,1)"; "rgba(255,255,255,1)"]
    (Js.toLowerCase (removeSpaces color)).

End Colors.


(* ================================================================== *)
(** ** Artifact extraction (part_000, line 144) *)
(* ================================================================== *)

Module Svg.

(** [[\s\S]*<\/svg>] with the [i] flag at the head of [s]: the star is
    greedy, so the longest run that a closing tag follows is taken; a
    shorter run is tried only when no longer one succeeds. *)
Fixpoint greedyClose (s : string) : option string :=
  match s with
  | EmptyString => None
  | String c s' =>
      match greedyClose s' with
      | Some r => Some (String c r)
      | None => if Js.prefixCI "</svg>" s then Some (Js.substring0 6 s) else None
      end
  end.

(** One attempt of [/<svg[\s\S]*<\/svg>/i] at the head of [s]. *)
Definition svgAt (s : string) : option string :=
  if Js.prefixCI "<svg" s
  then option_map (append (Js.substring0 4 s)) (greedyClose (Js.drop 4 s))
  else None.

(** [svgContent.match(/<svg[\s\S]*<\/svg>/i)]: the leftmost start position
    that matches wins; [None] is [null], [Some m] is [svgMatch[0]]. *)
Fixpoint svgMatch (s : string) : option string :=
  match svgAt s with
  | Some m => Some m
  | None =>
      match s with
      | EmptyString => None
      | String _ s' => svgMatch s'
      end
  end.

(** Positions of the opening and the closing tag in a text. *)
Definition openAt (i : nat) (text : string) : Prop :=
  Js.prefixCI "<svg" (Js.drop i text) = true.

Definition closeAt (j : nat) (text : string) : Prop :=
  Js.prefixCI "</svg>" (Js.drop j text) = true.

(** The span from the first opening tag to the end of the last closing
    tag, by positions in the text. *)
Definition spanOf (text fragment : string) : Prop :=
  exists i j,
    openAt i text /\ (forall i', openAt i' text -> i <= i')
    /\ closeAt j text /\ (forall j', closeAt j' text -> j' <= j)
    /\ i + 4 <= j
    /\ fragment = substring i (j + 6 - i) text.

End Svg.

(* ================================================================== *)
(** ** Values, effects and external collaborators *)
(* ================================================================== *)

(** What [JSON.parse] can return.  An object is its list of own
    properties; [getOwn] finds the value of a key. *)
#[warnings="-register-all"]
Inductive JsValue : Type :=
| JNull
| JBool (b : bool)
| JNum (n : SpecFloat.spec_float)
| JStr (s : string)
| JArr (items : list JsValue)
| JObj (fields : list (string * JsValue)).

(** A thrown value: an [Error] (of any subclass) with its message, or
    something that is not an instance of [Error]. *)
Inductive JsThrown : Type :=
| JsError (message : string)
| JsNonError.

Module Value.

(** ToBoolean *)
Definition truthy (v : JsValue) : bool :=
  match v with
  | JNull => false
  | JBool b => b
  | JNum (SpecFloat.S754_zero _) => false
  | JNum SpecFloat.S754_nan => false
  | JNum _ => true
  | JStr s => Js.truthy s
  | JArr _ => true
  | JObj _ => true
  end.

(** [!x] and [x || y] see [undefined] ([None]) as falsy. *)
Definition truthyU (v : option JsValue) : bool :=
  match v with
  | Some x => truthy x
  | None => false
  end.

Fixpoint getOwn (fields : list (string * JsValue)) (key : string) : option JsValue :=
  match fields with
  | [] => None
  | (k, v) :: rest => if String.eqb k key then Some v else getOwn rest key
  end.

(** [v.key] for the keys [url] and [template], which no prototype of a
    parsed value defines: only an object's own property answers. *)
Definition get (v : JsValue) (key : string) : option JsValue :=
  match v with
  | JObj fields => getOwn fields key
  | _ => None
  end.

Fixpoint join (sep : string) (pieces : list string) : string :=
  match pieces with
  | [] => EmptyString
  | [p] => p
  | p :: rest => p ++ sep ++ join sep rest
  end.

(** The pieces when every one of them is there. *)
Fixpoint allSome (pieces : list (option string)) : option (list string) :=
  match pieces with
  | [] => Some []
  | Some p :: rest => option_map (cons p) (allSome rest)
  | None :: _ => None
  end.

(** ToString, with the printing of numbers left to the runtime; [None]
    when the conversion throws a TypeError.  A parsed object has only data
    properties: with an own [toString] neither [toString] nor [valueOf]
    yields a primitive and the conversion throws; without one the inherited
    [toString] answers.  An array joins the conversions of its items, [null]
    giving the empty string. *)
Fixpoint toString (numberToString : SpecFloat.spec_float -> string)
         (v : JsValue) : option string :=
  match v with
  | JNull => Some "null"
  | JBool true => Some "true"
  | JBool false => Some "false"
  | JNum n => Some (numberToString n)
  | JStr s => Some s
  | JArr items =>
      option_map (join ",")
        (allSome
           (map (fun item =>
                   match item with
                   | JNull => Some EmptyString
                   | _ => toString numberToString item
                   end) items))
  | JObj fields =>
      match getOwn fields "toString" with
      | Some _ => None
      | None => Some "[object Object]"
      end
  end.

End Value.

(** The queries the source makes on a loaded document. *)
Inductive Selector : Type :=
| SelTitle                      (* title *)
| SelMetaProperty (p : string)  (* meta[property=p] *)
| SelMetaName (n : string)      (* meta[name=n] *)
| SelH1                         (* h1 *)
| SelP                          (* p *)
| SelMain                       (* main, article, .content, #content *)
| SelBody                       (* body *)
| SelStyle.                     (* style *)

(** A document loaded by cheerio, seen through the calls the source makes:
    [$(sel).text()], [$(sel).first().text()] and [$(sel).attr('content')]
    ([None] is [undefined]). *)
Record Cheerio : Type := {
  text : Selector -> string;
  firstText : Selector -> string;
  attrContent : Selector -> option string
}.

Record FetchResponse : Type := {
  ok : bool;
  status : nat;
  responseText : JsThrown + string
}.

(** A block of the generation service's answer. *)
Inductive ContentBlock : Type :=
| TextBlock (text : string)
| OtherBlock.

(** The object [extractWebpageContent] returns. *)
Module WebpageContent.
Record t : Type := {
  title : string;
  description : string;
  keywords : list string;
  mainContent : string;
  extractedColors : list string;
  domain : string
}.
End WebpageContent.

(** The external collaborators.  A rejected promise or a thrown exception
    is the left injection.  The generation request is determined by the
    arguments of [generateBannerWithAI], from which the prompt is rendered;
    the prompt text itself is not modelled. *)
Record Runtime : Type := {
  JSON_parse : string -> JsThrown + JsValue;
  URL_hostname : JsValue -> option string;   (* [new URL(x).hostname]; [None]: it throws *)
  fetch : JsValue -> JsThrown + FetchResponse;
  cheerio_load : string -> JsThrown + Cheerio;
  messages_create : WebpageContent.t -> JsValue -> JsThrown + list ContentBlock;
  Number_toString : SpecFloat.spec_float -> string;
  Object_prototype_has : string -> bool;    (* names every object inherits *)
  TypeError_message : string -> string      (* the engine's wording of a TypeError *)
}.

(** What a run leaves behind: the network calls and the console lines. *)
Inductive Event : Type :=
| Fetched (url : JsValue)
| Generated (content : WebpageContent.t) (template : JsValue)
| ConsoleError (label : string) (error : JsThrown).

Definition isNetworkCall (e : Event) : bool :=
  match e with
  | Fetched _ | Generated _ _ => true
  | ConsoleError _ _ => false
  end.

Definition networkCalls (log : list Event) : list Event :=
  filter isNetworkCall log.

Definition isGeneration (e : Event) : bool :=
  match e with
  | Generated _ _ => true
  | _ => false
  end.

Inductive Completion (A : Type) : Type :=
| Return (a : A)
| Throw (e : JsThrown).
Arguments Return {A} a.
Arguments Throw {A} e.

(** Sequential code with exceptions and a log of events. *)
Definition Eff (A : Type) : Type := list Event -> Completion A * list Event.

Module Eff.

Definition ret {A} (a : A) : Eff A := fun log => (Return a, log).

Definition throw {A} (e : JsThrown) : Eff A := fun log => (Throw e, log).

Definition bind {A B} (m : Eff A) (k : A -> Eff B) : Eff B :=
  fun log =>
    match m log with
    | (Return a, log') => k a log'
    | (Throw e, log') => (Throw e, log')
    end.

(** [try { body } catch (error) { handler }] *)
Definition tryCatch {A} (body : Eff A) (handler : JsThrown -> Eff A) : Eff A :=
  fun log =>
    match body log with
    | (Return a, log') => (Return a, log')
    | (Throw e, log') => handler e log'
    end.

Definition emit (e : Event) : Eff unit := fun log => (Return tt, log ++ [e])%list.

(** The outcome of an external call, awaited. *)
Definition await {A} (outcome : JsThrown + A) : Eff A :=
  match outcome with
  | inl e => throw e
  | inr a => ret a
  end.

End Eff.

Declare Scope eff_scope.
Delimit Scope eff_scope with eff.
Notation "x <- m ;; k" := (Eff.bind m (fun x => k))
  (at level 61, m at next level, right associativity) : eff_scope.
Notation "m ;;; k" := (Eff.bind m (fun _ => k))
  (at level 61, right associativity) : eff_scope.

(* ================================================================== *)
(** ** Request, response and the four templates *)
(* ================================================================== *)

(** [template: 'modern' | 'minimal' | 'gradient' | 'bold'] *)
Inductive Template : Type := modern | minimal | gradient | bold.

Definition templateName (t : Template) : string :=
  match t with
  | modern => "modern"
  | minimal => "minimal"
  | gradient => "gradient"
  | bold => "bold"
  end.

Definition templateOfKey (key : string) : option Template :=
  if String.eqb key "modern" then Some modern
  else if String.eqb key "minimal" then Some minimal
  else if String.eqb key "gradient" then Some gradient
  else if String.eqb key "bold" then Some bold
  else None.

(** [interface RequestBody] *)
Record RequestBody : Type := {
  url : string;
  template : Template
}.

(** The value of the [colors] property of the result: an array whose
    entries are strings or [undefined] ([None]), or what
    [defaultColorPalettes[template]] gave when it is not one of the four
    palettes. *)
Inductive ColorsValue : Type :=
| ColorArray (entries : list (option string))
| ColorsInherited
| ColorsUndefined.

(** [interface AnalysisResult] *)
Module AnalysisResult.
Record t : Type := {
  title : string;
  description : string;
  colors : ColorsValue;
  keywords : list string;
  svgContent : string
}.
End AnalysisResult.

(** The object handed to [JSON.stringify] for the response body ([''] for
    the preflight answer). *)
Inductive Body : Type :=
| EmptyBody
| ErrorBody (error : string) (message : option string)
| ResultBody (result : AnalysisResult.t).

Module Response.
Record t : Type := {
  statusCode : nat;
  headers : list (string * string);
  body : Body
}.
End Response.

(** The part of the Netlify event the handler reads; [body] is [None]
    when [event.body] is [null]. *)
Module HandlerEvent.
Record t : Type := {
  httpMethod : string;
  body : option string
}.
End HandlerEvent.

(** [process.env], as far as the handler reads it. *)
Record ProcessEnv : Type := {
  ANTHROPIC_API_KEY : option string
}.

(* ================================================================== *)
(** ** The function: extraction, generation, handler *)
(* ================================================================== *)

Module Banner.

Local Open Scope eff_scope.

(** [a || b || ... || last]: the first truthy operand, else the last
    one; an operand [None] is [undefined]. *)
Fixpoint firstTruthy (operands : list (option string)) (last : string) : string :=
  match operands with
  | [] => last
  | Some s :: rest => if Js.truthy s then s else firstTruthy rest last
  | None :: rest => firstTruthy rest last
  end.

Definition showNat (n : nat) : string :=
  NilEmpty.string_of_uint (Nat.to_uint n).

(** [defaultColorPalettes] (lines 212-217) *)
Definition defaultColorPalettes (t : Template) : list string :=
  match t with
  | modern => ["#3B82F6"; "#64748B"]
  | minimal => ["#1F2937"; "#9CA3AF"]
  | gradient => ["#6366F1"; "#EC4899"]
  | bold => ["#EF4444"; "#F59E0B"]
  end.

Definition headers : list (string * string) :=
  [("Access-Control-Allow-Origin", "*");
   ("Access-Control-Allow-Headers", "Content-Type");
   ("Access-Control-Allow-Methods", "POST, OPTIONS");
   ("Content-Type", "application/json")].

(** [{ statusCode, headers, body }] *)
Definition respond (statusCode : nat) (body : Body) : Response.t :=
  {| Response.statusCode := statusCode;
     Response.headers := headers;
     Response.body := body |}.

(** Lines 39-81: what is read off the loaded document; [hostname] is
    [new URL(url).hostname]. *)
Definition pageContent (doc : Cheerio) (hostname : string) : WebpageContent.t :=
  let title :=
    firstTruthy
      [Some (Js.trim (text doc SelTitle));
       attrContent doc (SelMetaProperty "og:title");
       Some (Js.trim (firstText doc SelH1))]
      "Untitled Page" in
  let description :=
    firstTruthy
      [attrContent doc (SelMetaName "description");
       attrContent doc (SelMetaProperty "og:description");
       Some (Js.substring0 200 (Js.trim (firstText doc SelP)))]
      "No description available" in
  let keywordsContent :=
    firstTruthy [attrContent doc (SelMetaName "keywords")] "" in
  let keywords :=
    if Js.truthy keywordsContent
    then map Js.trim (Js.split "," keywordsContent)
    else [] in
  let mainContent :=
    firstTruthy
      [Some (Js.substring0 500 (Js.trim (firstText doc SelMain)))]
      (Js.substring0 500 (Js.trim (text doc SelBody))) in
  let domain := Js.replaceFirst "www." "" hostname in
  let extractedColors := Colors.extractedColors (text doc SelStyle) in
  {| WebpageContent.title := Js.substring0 100 title;
     WebpageContent.description := Js.substring0 200 description;
     WebpageContent.keywords := Js.slice0 10 keywords;
     WebpageContent.mainContent := mainContent;
     WebpageContent.extractedColors := extractedColors;
     WebpageContent.domain := domain |}.

(** [response.content[0].type === 'text' ? response.content[0].text : '']:
    [None] when there is no block at index 0, where reading [type] throws. *)
Definition firstBlockText (content : list ContentBlock) : option string :=
  match content with
  | TextBlock t :: _ => Some t
  | OtherBlock :: _ => Some EmptyString
  | [] => None
  end.

Section WithRuntime.

Variable rt : Runtime.

(** The ways the body of [extractWebpageContent] throws: the fetch is
    rejected (a timeout among others), the status is not a success, the
    text cannot be read, or the document cannot be loaded. *)
Inductive extractionFails (url : JsValue) : JsThrown -> Prop :=
| FetchRejected e :
    fetch rt url = inl e -> extractionFails url e
| StatusRejected response :
    fetch rt url = inr response -> ok response = false ->
    extractionFails url
      (JsError ("HTTP error! status: " ++ showNat (status response)))
| TextRejected response e :
    fetch rt url = inr response -> ok response = true ->
    responseText response = inl e -> extractionFails url e
| LoadRejected response html e :
    fetch rt url = inr response -> ok response = true ->
    responseText response = inr html -> cheerio_load rt html = inl e ->
    extractionFails url e.

(** Lines 23-86. *)
Definition extractWebpageContent (url : JsValue) : Eff WebpageContent.t :=
  Eff.tryCatch
    (Eff.emit (Fetched url) ;;;
     response <- Eff.await (fetch rt url) ;;
     (if negb (ok response)
      then Eff.throw (JsError ("HTTP error! status: " ++ showNat (status response)))
      else Eff.ret tt) ;;;
     html <- Eff.await (responseText response) ;;
     doc <- Eff.await (cheerio_load rt html) ;;
     hostname <- match URL_hostname rt url with
                 | Some h => Eff.ret h
                 | None => Eff.throw (JsError (TypeError_message rt "Invalid URL"))
                 end ;;
     Eff.ret (pageContent doc hostname))
    (fun error =>
       Eff.emit (ConsoleError "Error extracting webpage content:" error) ;;;
       Eff.throw (JsError "Failed to analyze webpage content")).

(** Lines 88-154.  The prompt (lines 89-127) is rendered before the [try]:
    its text is left to [messages_create], but the conversion of the
    template to a string, which the rendering performs (line 106), is made
    here, and its TypeError leaves the function as it is. *)
Definition generateBannerWithAI (content : WebpageContent.t) (template : JsValue)
  : Eff string :=
  match Value.toString (Number_toString rt) template with
  | None => Eff.throw (JsError (TypeError_message rt "template to string"))
  | Some _ =>
      Eff.tryCatch
        (Eff.emit (Generated content template) ;;;
         response <- Eff.await (messages_create rt content template) ;;
         svgContent <- match firstBlockText response with
                       | Some t => Eff.ret t
                       | None =>
                           Eff.throw (JsError (TypeError_message rt "content[0].type"))
                       end ;;
         match Svg.svgMatch svgContent with
         | Some svgMatch0 => Eff.ret svgMatch0
         | None => Eff.throw (JsError "No valid SVG found in AI response")
         end)
        (fun error =>
           Eff.emit (ConsoleError "Error generating banner with AI:" error) ;;;
           Eff.throw (JsError "Failed to generate banner with AI"))
  end.

(** [defaultColorPalettes[template]]: the key is the template converted
    to a string, which can throw ([None]); an own property is one of the
    four palettes, any other key finds what objects inherit, or nothing. *)
Inductive Member : Type :=
| OwnPalette (palette : list string)
| InheritedMember
| UndefinedMember.

Definition memberOfKey (key : string) : Member :=
  match templateOfKey key with
  | Some t => OwnPalette (defaultColorPalettes t)
  | None => if Object_prototype_has rt key then InheritedMember else UndefinedMember
  end.

Definition paletteMember (template : JsValue) : option Member :=
  option_map memberOfKey (Value.toString (Number_toString rt) template).

(** Lines 219-224.  The table is indexed first (line 219), whatever the
    number of extracted colors, and the conversion of the template to a key
    can throw there.  Reading index 1 of [undefined] throws; an inherited
    member has no index 1. *)
Definition resolveColors (template : JsValue) (extracted : list string)
  : Eff ColorsValue :=
  match paletteMember template with
  | None => Eff.throw (JsError (TypeError_message rt "template to key"))
  | Some member =>
      let colors :=
        match member with
        | OwnPalette p => ColorArray (map Some p)
        | InheritedMember => ColorsInherited
        | UndefinedMember => ColorsUndefined
        end in
      if 2 <=? List.length extracted then
        Eff.ret (ColorArray (map Some (Js.slice0 2 extracted)))
      else if List.length extracted =? 1 then
        match member with
        | OwnPalette p => Eff.ret (ColorArray [nth_error extracted 0; nth_error p 1])
        | InheritedMember => Eff.ret (ColorArray [nth_error extracted 0; None])
        | UndefinedMember => Eff.throw (JsError (TypeError_message rt "undefined[1]"))
        end
      else Eff.ret colors
  end.

Definition errorMessage (error : JsThrown) : string :=
  match error with
  | JsError message => message
  | JsNonError => "Unknown error"
  end.

(** [!process.env.ANTHROPIC_API_KEY] *)
Definition credentialMissing (env : ProcessEnv) : bool :=
  match ANTHROPIC_API_KEY env with
  | Some key => negb (Js.truthy key)
  | None => true
  end.

(** [event.body || '{}'] *)
Definition bodyText (event : HandlerEvent.t) : string :=
  firstTruthy [HandlerEvent.body event] "{}".

(** Lines 187-241: the fields are checked, the URL is validated and
    the pipeline runs.  An absent property is [undefined], hence falsy. *)
Definition validated (parsed : JsValue) : Eff Response.t :=
  match Value.get parsed "url", Value.get parsed "template" with
  | Some url, Some template =>
      if negb (Value.truthy url) || negb (Value.truthy template) then
        Eff.ret (respond 400 (ErrorBody "URL and template are required" None))
      else
        (* try { new URL(url) } catch { return 400 } *)
        match URL_hostname rt url with
        | None =>
            Eff.ret (respond 400 (ErrorBody "Invalid URL provided" None))
        | Some _ =>
            webpageContent <- extractWebpageContent url ;;
            colors <- resolveColors template
                        (WebpageContent.extractedColors webpageContent) ;;
            svgContent <- generateBannerWithAI webpageContent template ;;
            Eff.ret
              (respond 200
                 (ResultBody
                    {| AnalysisResult.title := WebpageContent.title webpageContent;
                       AnalysisResult.description :=
                         WebpageContent.description webpageContent;
                       AnalysisResult.colors := colors;
                       AnalysisResult.keywords :=
                         WebpageContent.keywords webpageContent;
                       AnalysisResult.svgContent := svgContent |}))
        end
  | _, _ =>
      Eff.ret (respond 400 (ErrorBody "URL and template are required" None))
  end.

(** Lines 243-254: the catch-all of the handler. *)
Definition failed (error : JsThrown) : Eff Response.t :=
  Eff.emit (ConsoleError "Function error:" error) ;;;
  Eff.ret (respond 500
             (ErrorBody "Internal server error" (Some (errorMessage error)))).

(** Lines 156-255. *)
Definition handler (env : ProcessEnv) (event : HandlerEvent.t) : Eff Response.t :=
  if String.eqb (HandlerEvent.httpMethod event) "OPTIONS" then
    Eff.ret (respond 200 EmptyBody)
  else if negb (String.eqb (HandlerEvent.httpMethod event) "POST") then
    Eff.ret (respond 405 (ErrorBody "Method not allowed" None))
  else
    Eff.tryCatch
      ((if credentialMissing env
        then Eff.throw (JsError "ANTHROPIC_API_KEY environment variable is not set")
        else Eff.ret tt) ;;;
       parsed <- Eff.await (JSON_parse rt (bodyText event)) ;;
       (* const { url, template } = body *)
       (match parsed with
        | JNull => Eff.throw (JsError (TypeError_message rt "destructure null"))
        | _ => Eff.ret tt
        end) ;;;
       validated parsed)
      failed.

End WithRuntime.

End Banner.

(* ================================================================== *)
(** ** A concrete runtime and concrete pages, for examples *)
(* ================================================================== *)

Module Fixture.

Definition quote : string := String (ascii_of_nat 34) EmptyString.

Definition quoted (s : string) : string := quote ++ s ++ quote.

(** The text of a flat JSON object with string values. *)
Definition objectText (fields : list (string * string)) : string :=
  "{" ++ Value.join "," (map (fun kv => quoted (fst kv) ++ ":" ++ quoted (snd kv)) fields)
      ++ "}".

Definition objectValue (fields : list (string * string)) : JsValue :=
  JObj (map (fun kv => (fst kv, JStr (snd kv))) fields).

(** The request bodies this runtime's [JSON.parse] understands. *)
Definition knownObjects : list (list (string * string)) :=
  [ [];
    [("url", "https://example.com"); ("template", "bold")];
    [("url", "https://colors.example"); ("template", "modern")];
    [("url", "https://nosvg.example"); ("template", "minimal")];
    [("url", "https://down.example"); ("template", "modern")];
    [("url", "https://example.com"); ("template", "fancy")];
    [("url", "not a url"); ("template", "modern")];
    [("url", "not a url")];
    [("template", "modern")] ].

Fixpoint parseKnown (known : list (list (string * string))) (source : string)
  : JsThrown + JsValue :=
  match known with
  | [] => if String.eqb source "null" then inr JNull
          else inl (JsError "Unexpected token in JSON")
  | fields :: rest =>
      if String.eqb source (objectText fields) then inr (objectValue fields)
      else parseKnown rest source
  end.

Definition hostnameOf (v : JsValue) : option string :=
  match v with
  | JStr s => if prefix "https://" s then Some (Js.drop 8 s) else None
  | _ => None
  end.

(** A page with a title, one paragraph, no meta tags and no styles. *)
Definition examplePage : Cheerio :=
  {| text := fun sel =>
       match sel with
       | SelTitle => "Example"
       | SelBody => "Hello world and more."
       | _ => EmptyString
       end;
     firstText := fun sel =>
       match sel with
       | SelP => "Hello world and more."
       | _ => EmptyString
       end;
     attrContent := fun _ => None |}.

(** A page without a title element whose og:title has blanks around it,
    and whose style sheet names colors. *)
Definition ogStyle : string :=
  ":root{--ink:#000000;--brand:#3B82F6;--link:#3b82f6;--paper:#ffffff}".

Definition ogPage : Cheerio :=
  {| text := fun sel =>
       match sel with
       | SelStyle => ogStyle
       | _ => EmptyString
       end;
     firstText := fun sel =>
       match sel with
       | SelH1 => "Heading"
       | _ => EmptyString
       end;
     attrContent := fun sel =>
       match sel with
       | SelMetaProperty p => if String.eqb p "og:title" then Some " Hello " else None
       | _ => None
       end |}.

Definition fetchPage (v : JsValue) : JsThrown + FetchResponse :=
  match v with
  | JStr "https://example.com" =>
      inr {| ok := true; status := 200; responseText := inr "example" |}
  | JStr "https://colors.example" =>
      inr {| ok := true; status := 200; responseText := inr "colors" |}
  | JStr "https://nosvg.example" =>
      inr {| ok := true; status := 200; responseText := inr "example" |}
  | JStr "https://missing.example" =>
      inr {| ok := false; status := 404; responseText := inr "Not Found" |}
  | _ => inl (JsError "network timeout")
  end.

Definition loadPage (html : string) : JsThrown + Cheerio :=
  if String.eqb html "colors" then inr ogPage else inr examplePage.

Definition fencedSvg : string :=
  "```svg
<svg viewBox='0 0 1200 630'><text>Hi</text></SVG>
```
Here is your banner.".

Definition answer (content : WebpageContent.t) (template : JsValue)
  : JsThrown + list ContentBlock :=
  match template with
  | JStr "minimal" => inr [TextBlock "I cannot draw that."]
  | _ => inr [TextBlock fencedSvg]
  end.

Definition runtime : Runtime :=
  {| JSON_parse := parseKnown knownObjects;
     URL_hostname := hostnameOf;
     fetch := fetchPage;
     cheerio_load := loadPage;
     messages_create := answer;
     Number_toString := fun _ => "0";
     Object_prototype_has := fun key => String.eqb key "constructor";
     TypeError_message := fun what => "TypeError: " ++ what |}.

Definition withKey : ProcessEnv := {| ANTHROPIC_API_KEY := Some "sk-test" |}.

Definition withoutKey : ProcessEnv := {| ANTHROPIC_API_KEY := None |}.

Definition post (fields : list (string * string)) : HandlerEvent.t :=
  {| HandlerEvent.httpMethod := "POST";
     HandlerEvent.body := Some (objectText fields) |}.

Definition postText (source : option string) : HandlerEvent.t :=
  {| HandlerEvent.httpMethod := "POST"; HandlerEvent.body := source |}.

(** The result the handler produces for the page with colors and the
    template [modern]. *)
Definition colorsResult : AnalysisResult.t :=
  {| AnalysisResult.title := " Hello ";
     AnalysisResult.description := "No description available";
     AnalysisResult.colors := ColorArray [Some "#3B82F6"; Some "#3b82f6"];
     AnalysisResult.keywords := [];
     AnalysisResult.svgContent :=
       "<svg viewBox='0 0 1200 630'><text>Hi</text></SVG>" |}.

End Fixture.

(* ================================================================== *)
(** ** Shapes: color literals, fragments, answers and runs *)
(* ================================================================== *)

Module Literal.

Definition allChars (p : ascii -> bool) (s : string) : bool :=
  forallb p (list_ascii_of_string s).

(** [#] and three or six hex digits. *)
Definition isHex (token : string) : Prop :=
  exists digits,
    token = "#" ++ digits
    /\ (String.length digits = 3 \/ String.length digits = 6)
    /\ allChars Colors.isHexDigit digits = true.

(** [rgb(] or [rgba(], a non-empty run without a closing parenthesis, [)]. *)
Definition isFunctional (token : string) : Prop :=
  exists name inner,
    (name = "rgb" \/ name = "rgba")
    /\ token = name ++ "(" ++ inner ++ ")"
    /\ inner <> EmptyString
    /\ allChars (fun c => negb (Ascii.eqb c ")")) inner = true.

End Literal.

Module Artifact.

(** No code unit of [s] is [<]. *)
Definition noAngle (s : string) : bool :=
  Literal.allChars (fun c => negb (Ascii.eqb c "<")) s.

(** An opening tag, anything, a closing tag; the tags in any letter case. *)
Definition isFragment (fragment : string) : Prop :=
  exists opening body closing,
    fragment = opening ++ body ++ closing
    /\ String.length opening = 4 /\ Js.prefixCI "<svg" opening = true
    /\ String.length closing = 6 /\ Js.prefixCI "</svg>" closing = true.

End Artifact.

Module Run.

(** The answers the handler has, by status. *)
Definition answer (status : nat) (body : Body) : Prop :=
  (status = 200 /\ (body = EmptyBody \/ exists result, body = ResultBody result))
  \/ (status = 400
      /\ (body = ErrorBody "URL and template are required" None
          \/ body = ErrorBody "Invalid URL provided" None))
  \/ (status = 405 /\ body = ErrorBody "Method not allowed" None)
  \/ (status = 500
      /\ exists message, body = ErrorBody "Internal server error" (Some message)).

(** The network calls among the events a run adds: none, the fetch alone,
    or the fetch and then the generation. *)
Definition atMostFetchThenGenerate (delta : list Event) : Prop :=
  networkCalls delta = []
  \/ (exists u, networkCalls delta = [Fetched u])
  \/ (exists u content t, networkCalls delta = [Fetched u; Generated content t]).

Definition runsTo (run : Completion Response.t * list Event) (log : list Event) : Prop :=
  exists status body delta,
    run = (Return (Banner.respond status body), (log ++ delta)%list)
    /\ answer status body
    /\ atMostFetchThenGenerate delta.

End Run.

(* ================================================================== *)
(** ** The earlier variant (part_000, lines 256-486): colors *)
(* ================================================================== *)

Module Legacy.

(** Lines 314-319: the first five matches, as they come. *)
Definition extractedColors (styleContent : string) : list string :=
  match Colors.colorMatches styleContent with
  | Some matches => ([] ++ Js.slice0 5 matches)%list
  | None => []
  end.

(** [defaultColors] (lines 446-451) *)
Definition defaultColors (t : Template) : list string :=
  match t with
  | modern => ["#3B82F6"; "#14B8A6"; "#F97316"; "#EF4444"; "#8B5CF6"]
  | minimal => ["#1F2937"; "#6B7280"; "#9CA3AF"; "#D1D5DB"; "#F3F4F6"]
  | gradient => ["#FF6B6B"; "#4ECDC4"; "#45B7D1"; "#96CEB4"; "#FFEAA7"]
  | bold => ["#E74C3C"; "#3498DB"; "#2ECC71"; "#F39C12"; "#9B59B6"]
  end.

(** Lines 453-455.  The template is whatever the request holds (line 423
    checks that it is truthy, nothing more), and [defaultColors] is indexed
    with it only when nothing was extracted: its conversion to a key can
    throw ([inl]), and a key that is not one of the four finds what objects
    inherit, or nothing. *)
Definition resolveColors (rt : Runtime) (template : JsValue) (extracted : list string)
  : JsThrown + ColorsValue :=
  if 0 <? List.length extracted then
    inr (ColorArray (map Some (Js.slice0 5 extracted)))
  else
    match Value.toString (Number_toString rt) template with
    | None => inl (JsError (TypeError_message rt "template to key"))
    | Some key =>
        match templateOfKey key with
        | Some t => inr (ColorArray (map Some (defaultColors t)))
        | None =>
            inr (if Object_prototype_has rt key then ColorsInherited
                 else ColorsUndefined)
        end
    end.

End Legacy.

(* ================================================================== *)
(** ** A second concrete runtime: a page with one color *)
(* ================================================================== *)

Module Fixture2.

Definition oneColorPage : Cheerio :=
  {| text := fun sel =>
       match sel with
       | SelTitle => "One"
       | SelStyle => "a{color:#10B981}"
       | _ => EmptyString
       end;
     firstText := fun _ => EmptyString;
     attrContent := fun sel =>
       match sel with
       | SelMetaName n =>
           if String.eqb n "keywords" then Some " ai , tools,ai " else None
       | _ => None
       end |}.

Definition body : list (string * string) :=
  [("url", "https://one.example"); ("template", "fancy")].

Definition runtime : Runtime :=
  {| JSON_parse := fun source =>
       if String.eqb source (Fixture.objectText body)
       then inr (Fixture.objectValue body)
       else JSON_parse Fixture.runtime source;
     URL_hostname := Fixture.hostnameOf;
     fetch := fun v =>
       match v with
       | JStr "https://one.example" =>
           inr {| ok := true; status := 200; responseText := inr "one" |}
       | _ => Fixture.fetchPage v
       end;
     cheerio_load := fun html =>
       if String.eqb html "one" then inr oneColorPage else Fixture.loadPage html;
     messages_create := Fixture.answer;
     Number_toString := fun _ => "0";
     Object_prototype_has := fun key => String.eqb key "constructor";
     TypeError_message := fun what => "TypeError: " ++ what |}.

End Fixture2.

(* ================================================================== *)
(** ** A third concrete runtime: other templates for the same pages *)
(* ================================================================== *)

Module Fixture3.

(** The value of the text [{ toString : true }] (with its key quoted): an
    object that holds a [toString] field. *)
Definition unconvertible : JsValue := JObj [("toString", JBool true)].

Definition unconvertibleText : string :=
  "{" ++ Fixture.quoted "url" ++ ":" ++ Fixture.quoted "https://colors.example" ++ ","
      ++ Fixture.quoted "template" ++ ":{" ++ Fixture.quoted "toString" ++ ":true}}".

Definition unconvertibleValue : JsValue :=
  JObj [("url", JStr "https://colors.example"); ("template", unconvertible)].

(** A body with a field the function does not read, before the two it
    reads, the template before the URL. *)
Definition oneColorBody : list (string * string) :=
  [("source", "page"); ("template", "gradient"); ("url", "https://one.example")].

(** A page whose style sheet names three colors. *)
Definition threeColorPage : Cheerio :=
  {| text := fun sel =>
       match sel with
       | SelTitle => "Three"
       | SelStyle => "a{color:#111111;background:#222222;border-color:#333333}"
       | _ => EmptyString
       end;
     firstText := fun _ => EmptyString;
     attrContent := fun _ => None |}.

Definition threeColorBody : list (string * string) :=
  [("url", "https://three.example"); ("template", "minimal"); ("note", "x")].

Definition runtime : Runtime :=
  {| JSON_parse := fun source =>
       if String.eqb source unconvertibleText then inr unconvertibleValue
       else if String.eqb source (Fixture.objectText oneColorBody)
            then inr (Fixture.objectValue oneColorBody)
            else if String.eqb source (Fixture.objectText threeColorBody)
                 then inr (Fixture.objectValue threeColorBody)
                 else JSON_parse Fixture2.runtime source;
     URL_hostname := URL_hostname Fixture2.runtime;
     fetch := fun v =>
       match v with
       | JStr "https://three.example" =>
           inr {| ok := true; status := 200; responseText := inr "three" |}
       | _ => fetch Fixture2.runtime v
       end;
     cheerio_load := fun html =>
       if String.eqb html "three" then inr threeColorPage
       else cheerio_load Fixture2.runtime html;
     messages_create := fun content template =>
       match template with
       | JStr "minimal" => inr [TextBlock Fixture.fencedSvg]
       | _ => messages_create Fixture2.runtime content template
       end;
     Number_toString := Number_toString Fixture2.runtime;
     Object_prototype_has := Object_prototype_has Fixture2.runtime;
     TypeError_message := TypeError_message Fixture2.runtime |}.

Definition postText : HandlerEvent.t :=
  {| HandlerEvent.httpMethod := "POST";
     HandlerEvent.body := Some unconvertibleText |}.

End Fixture3.

(* ================================================================== *)
(** ** The color policy as the specification words it *)
(* ================================================================== *)

Module Policy.

(** This definition follows the specification, not the code; the code's
    [Banner.resolveColors] is compared with it.  With no extracted color
    the template's default pair, unchanged; with one, that color and the
    default second color; with two or more, the first two extracted. *)
Definition resolved (defaults : string * string) (extracted : list string)
  : list string :=
  match extracted with
  | [] => [fst defaults; snd defaults]
  | [only] => [only; snd defaults]
  | first :: second :: _ => [first; second]
  end.

End Policy.

(* ================================================================== *)
(** ** The page that calls the function (App.tsx) *)
(* ================================================================== *)

Module App.

(** The state of the component (lines 26-32). *)
Record State : Type := {
  url : string;
  isAnalyzing : bool;
  analysisResult : option AnalysisResult.t;
  selectedTemplate : Template;
  isGenerating : bool;
  svgContent : string;
  error : option string
}.

Definition initial : State :=
  {| url := EmptyString; isAnalyzing := false; analysisResult := None;
     selectedTemplate := modern; isGenerating := false;
     svgContent := EmptyString; error := None |}.

Definition setIsAnalyzing (b : bool) (st : State) : State :=
  {| url := url st; isAnalyzing := b; analysisResult := analysisResult st;
     selectedTemplate := selectedTemplate st; isGenerating := isGenerating st;
     svgContent := svgContent st; error := error st |}.

Definition setIsGenerating (b : bool) (st : State) : State :=
  {| url := url st; isAnalyzing := isAnalyzing st; analysisResult := analysisResult st;
     selectedTemplate := selectedTemplate st; isGenerating := b;
     svgContent := svgContent st; error := error st |}.

Definition setAnalysisResult (r : option AnalysisResult.t) (st : State) : State :=
  {| url := url st; isAnalyzing := isAnalyzing st; analysisResult := r;
     selectedTemplate := selectedTemplate st; isGenerating := isGenerating st;
     svgContent := svgContent st; error := error st |}.

Definition setSvgContent (svg : string) (st : State) : State :=
  {| url := url st; isAnalyzing := isAnalyzing st; analysisResult := analysisResult st;
     selectedTemplate := selectedTemplate st; isGenerating := isGenerating st;
     svgContent := svg; error := error st |}.

Definition setError (e : option string) (st : State) : State :=
  {| url := url st; isAnalyzing := isAnalyzing st; analysisResult := analysisResult st;
     selectedTemplate := selectedTemplate st; isGenerating := isGenerating st;
     svgContent := svgContent st; error := e |}.

(** What the POST to the function and the reading of its answer come to:
    the fetch is rejected; or the response is not ok and [response.json()]
    is rejected or gives an object, of which [message] is read ([None] when
    it has none); or the response is ok and [response.json()] is rejected or
    gives the result. *)
Inductive Exchange : Type :=
| FetchRejected (e : JsThrown)
| NotOk (errorData : JsThrown + option string)
| Ok (result : JsThrown + AnalysisResult.t).

(** The try and the catch of [analyzeUrl] (lines 45-67) and of
    [regenerateBanner] (lines 79-101), which differ in the fallback text. *)
Definition settle (fallback : string) (exchange : Exchange) (st : State) : State :=
  let caught (thrown : JsThrown) :=
    setError
      (Some match thrown with
            | JsError message => message
            | JsNonError => fallback
            end) st in
  match exchange with
  | FetchRejected e => caught e
  | NotOk (inl e) => caught e
  | NotOk (inr message) => caught (JsError (Banner.firstTruthy [message] fallback))
  | Ok (inl e) => caught e
  | Ok (inr result) =>
      setSvgContent (AnalysisResult.svgContent result)
        (setAnalysisResult (Some result) st)
  end.

(** How the browser sees a response of the handler: [response.ok] is a
    status from 200 to 299, and [response.json()] is rejected (with
    [jsonError]) on the empty body.  An ok response with an error body is
    outside the declared type of [result] ([None]). *)
Definition exchangeOf (jsonError : JsThrown) (response : Response.t) : option Exchange :=
  let ok := (200 <=? Response.statusCode response)
            && (Response.statusCode response <=? 299) in
  match Response.body response with
  | EmptyBody => Some (if ok then Ok (inl jsonError) else NotOk (inl jsonError))
  | ErrorBody _ message => if ok then None else Some (NotOk (inr message))
  | ResultBody result => Some (if ok then Ok (inr result) else NotOk (inr None))
  end.

Section WithServer.

(** The function as the page reaches it, and the browser's URL
    constructor. *)
Variable server : string -> Template -> Exchange.
Variable validUrl : string -> bool.

(** Lines 41-71; the second component is the requests sent. *)
Definition analyzeUrl (inputUrl : string) (st : State)
  : State * list (string * Template) :=
  let st1 := setError None (setIsAnalyzing true st) in
  let st2 := settle "Failed to analyze URL" (server inputUrl (selectedTemplate st)) st1 in
  (setIsAnalyzing false st2, [(inputUrl, selectedTemplate st)]).

(** Lines 73-105. *)
Definition regenerateBanner (st : State) : State * list (string * Template) :=
  if negb (Js.truthy (url st)) then (st, [])
  else
    let st1 := setError None (setIsGenerating true st) in
    let st2 :=
      settle "Failed to generate banner" (server (url st) (selectedTemplate st)) st1 in
    (setIsGenerating false st2, [(url st, selectedTemplate st)]).

(** Lines 154-164. *)
Definition handleUrlSubmit (st : State) : State * list (string * Template) :=
  if Js.truthy (url st) then
    if validUrl (url st) then analyzeUrl (url st) st
    else (setError (Some "Please enter a valid URL") st, [])
  else (st, []).

End WithServer.

End App.

(* ================================================================== *)
(** * Properties *)
(* ================================================================== *)

(** ** Worked examples *)

Example scan_fixture :
  Colors.scan 0 "a{color:#000000;b:#3B82F6}c{d:#3b82f6;e:#ffffff;f:#abcd}"
  = ["#000000"; "#3B82F6"; "#3b82f6"; "#ffffff"; "#abc"].
Proof. reflexivity. Qed.

Example scan_functional :
  Colors.scan 0 "x{a:rgb(1, 2, 3);b:rgba(0,0,0,.5);c:rgb();d:rgb(9}"
  = ["rgb(1, 2, 3)"; "rgba(0,0,0,.5)"].
Proof. reflexivity. Qed.

Example svgMatch_fenced :
  Svg.svgMatch Fixture.fencedSvg
  = Some "<svg viewBox='0 0 1200 630'><text>Hi</text></SVG>".
Proof. reflexivity. Qed.

Example svgMatch_spans_siblings :
  Svg.svgMatch "a<svg>1</svg>b<svg>2</svg>c" = Some "<svg>1</svg>b<svg>2</svg>".
Proof. reflexivity. Qed.

Example svgMatch_closing_first :
  Svg.svgMatch "</svg> then <svg>" = None.
Proof. reflexivity. Qed.

Example trim_keeps_inner_blanks :
  Js.trim "  a  b
 " = "a  b".
Proof. reflexivity. Qed.

Example split_keeps_empty_pieces :
  Js.split "," "a,,b," = ["a"; ""; "b"; ""].
Proof. reflexivity. Qed.

Example domain_drops_first_www :
  Js.replaceFirst "www." "" "www.example.com" = "example.com".
Proof. reflexivity. Qed.

Example blocklist_ignores_case :
  Colors.extractedColors "a{color:#FFF;background:#FFFFFF;border-color:#3B82F6}"
  = ["#3B82F6"].
Proof. reflexivity. Qed.

Example exact_duplicates_collapse :
  Colors.extractedColors "a{color:#3B82F6}b{color:#3B82F6}c{color:#10B981}"
  = ["#3B82F6"; "#10B981"].
Proof. reflexivity. Qed.

Example keywords_split :
  map Js.trim (Js.split "," "ai, tools, ai") = ["ai"; "tools"; "ai"].
Proof. reflexivity. Qed.

Example handler_end_to_end :
  fst (Banner.handler Fixture.runtime Fixture.withKey
         (Fixture.post [("url", "https://example.com"); ("template", "bold")]) [])
  = Return
      (Banner.respond 200
         (ResultBody
            {| AnalysisResult.title := "Example";
               AnalysisResult.description := "Hello world and more.";
               AnalysisResult.colors := ColorArray [Some "#EF4444"; Some "#F59E0B"];
               AnalysisResult.keywords := [];
               AnalysisResult.svgContent :=
                 "<svg viewBox='0 0 1200 630'><text>Hi</text></SVG>" |})).
Proof. vm_compute. reflexivity. Qed.

(** ** Color extraction *)

Section ColorFacts.

Lemma includes_In (a : list string) (x : string) :
  Js.includes a x = true <-> In x a.
Proof.
  unfold Js.includes. rewrite existsb_exists. split.
  - intros (y & Hy & Heq). apply String.eqb_eq in Heq. now subst.
  - intros Hin. exists x. split; [assumption | apply String.eqb_refl].
Qed.

Lemma setInsertAll_In (a seen : list string) (x : string) :
  In x (Js.setInsertAll seen a) <-> In x a /\ ~ In x seen.
Proof.
  revert seen. induction a as [|y a IH]; intros seen; simpl.
  - tauto.
  - destruct (Js.includes seen y) eqn:Hy.
    + apply includes_In in Hy. rewrite IH. split.
      * intros [Ha Hs]. tauto.
      * intros [[-> | Ha] Hs]; [contradiction | tauto].
    + assert (Hny : ~ In y seen).
      { intros Hin. apply includes_In in Hin. congruence. }
      simpl. rewrite IH. simpl. split.
      * intros [<- | [Ha Hs]]; tauto.
      * intros [[-> | Ha] Hs]; [tauto|].
        destruct (string_dec y x) as [-> | Hne]; [tauto|]. right. tauto.
Qed.

Lemma setInsertAll_NoDup (a seen : list string) :
  NoDup (Js.setInsertAll seen a).
Proof.
  revert seen. induction a as [|y a IH]; intros seen; simpl.
  - constructor.
  - destruct (Js.includes seen y); [apply IH|].
    constructor; [|apply IH].
    rewrite setInsertAll_In. simpl. tauto.
Qed.

Lemma firstn_NoDup {A} (n : nat) (l : list A) : NoDup l -> NoDup (firstn n l).
Proof.
  intros H. rewrite <- (firstn_skipn n l) in H.
  now apply NoDup_app_remove_r in H.
Qed.

Lemma firstn_In {A} (n : nat) (l : list A) (x : A) : In x (firstn n l) -> In x l.
Proof.
  intros H. rewrite <- (firstn_skipn n l). apply in_or_app. now left.
Qed.

Lemma uniqueColors_In (matches : list string) (c : string) :
  In c (Colors.uniqueColors matches) ->
  In c matches /\ Js.includes Colors.blocklist (Js.toLowerCase c) = false.
Proof.
  unfold Colors.uniqueColors, Js.slice0, Js.newSetSpread. intros H.
  apply firstn_In in H. apply filter_In in H. destruct H as [Hin Hf].
  apply setInsertAll_In in Hin. apply negb_true_iff in Hf. tauto.
Qed.

Lemma uniqueColors_NoDup (matches : list string) :
  NoDup (Colors.uniqueColors matches).
Proof.
  unfold Colors.uniqueColors, Js.slice0, Js.newSetSpread.
  apply firstn_NoDup, NoDup_filter, setInsertAll_NoDup.
Qed.

Lemma extractedColors_In (styleContent c : string) :
  In c (Colors.extractedColors styleContent) ->
  In c (Colors.scan 0 styleContent)
  /\ Js.includes Colors.blocklist (Js.toLowerCase c) = false.
Proof.
  unfold Colors.extractedColors, Colors.colorMatches.
  destruct (Colors.scan 0 styleContent) as [|m ms] eqn:Hs; simpl; [tauto|].
  apply uniqueColors_In.
Qed.

Lemma extractedColors_NoDup (styleContent : string) :
  NoDup (Colors.extractedColors styleContent).
Proof.
  unfold Colors.extractedColors.
  destruct (Colors.colorMatches styleContent); simpl;
    [apply uniqueColors_NoDup | constructor].
Qed.

Lemma extractedColors_length (styleContent : string) :
  List.length (Colors.extractedColors styleContent) <= 3.
Proof.
  unfold Colors.extractedColors.
  destruct (Colors.colorMatches styleContent); simpl; [|lia].
  unfold Colors.uniqueColors, Js.slice0. apply firstn_le_length.
Qed.

End ColorFacts.

(** C1 (as amended).  For every style text whose color tokens are exactly
    #000000, #3B82F6, #3b82f6, #ffffff in that order, the extraction returns
    [#3B82F6; #3b82f6]: the black and white hex values are dropped, and the
    two spellings of the blue, which differ in letter case, are both kept,
    because the set that removes duplicates compares strings exactly.  In
    general the result never repeats a string. *)
Theorem C1_duplicates_are_exact (styleContent : string) :
  (Colors.colorMatches styleContent
   = Some ["#000000"; "#3B82F6"; "#3b82f6"; "#ffffff"] ->
   Colors.extractedColors styleContent = ["#3B82F6"; "#3b82f6"])
  /\ NoDup (Colors.extractedColors styleContent).
Proof.
  split.
  - intros H. unfold Colors.extractedColors. rewrite H. reflexivity.
  - apply extractedColors_NoDup.
Qed.

Lemma C1_duplicates_are_exact_witness :
  Colors.colorMatches Fixture.ogStyle
  = Some ["#000000"; "#3B82F6"; "#3b82f6"; "#ffffff"]
  /\ Colors.extractedColors Fixture.ogStyle = ["#3B82F6"; "#3b82f6"].
Proof.
  split.
  - reflexivity.
  - apply (proj1 (C1_duplicates_are_exact Fixture.ogStyle)). reflexivity.
Defined.

(** C1 as written fails: a style sheet with exactly the four tokens whose
    extracted colors are not [#3B82F6] alone. *)
Lemma C1_counterexample :
  Colors.colorMatches Fixture.ogStyle
  = Some ["#000000"; "#3B82F6"; "#3b82f6"; "#ffffff"]
  /\ Colors.extractedColors Fixture.ogStyle <> ["#3B82F6"].
Proof.
  split; [reflexivity | discriminate].
Qed.

(** C8 (as amended).  For every style text, no extracted color, lower-cased,
    is one of the six literals of the blocklist: the hex spellings of pure
    black and pure white in any letter case, and [rgb(0,0,0)] and
    [rgb(255,255,255)] spelled exactly so.  Every extracted color is one of
    the matches of the scan. *)
Theorem C8_blocklist_is_literal (styleContent color : string) :
  In color (Colors.extractedColors styleContent) ->
  ~ In (Js.toLowerCase color)
      ["#000"; "#fff"; "#ffffff"; "#000000"; "rgb(0,0,0)"; "rgb(255,255,255)"]
  /\ In color (Colors.scan 0 styleContent).
Proof.
  intros H. apply extractedColors_In in H. destruct H as [Hscan Hblock].
  split; [|assumption].
  intros Hin. apply includes_In in Hin.
  change (Js.includes Colors.blocklist (Js.toLowerCase color) = true) in Hin.
  congruence.
Qed.

Lemma C8_blocklist_is_literal_witness :
  ~ In (Js.toLowerCase "#3B82F6")
      ["#000"; "#fff"; "#ffffff"; "#000000"; "rgb(0,0,0)"; "rgb(255,255,255)"]
  /\ In "#3B82F6" (Colors.scan 0 "a{color:#FFF;border-color:#3B82F6}").
Proof.
  apply (C8_blocklist_is_literal "a{color:#FFF;border-color:#3B82F6}" "#3B82F6").
  vm_compute. left. reflexivity.
Defined.

(** C8 as written fails: black written with spaces in [rgb()] and white
    written in [rgba()] are both extracted. *)
Lemma C8_counterexample :
  Colors.extractedColors "a{color:rgb(0, 0, 0);background:rgba(255,255,255,1)}"
  = ["rgb(0, 0, 0)"; "rgba(255,255,255,1)"]
  /\ Colors.denotesPureBlackOrWhite "rgb(0, 0, 0)" = true
  /\ Colors.denotesPureBlackOrWhite "rgba(255,255,255,1)" = true.
Proof.
  repeat split; reflexivity.
Qed.

(** ** Title fallback chain *)

Lemma firstTruthy_head_truthy (s : string) rest last :
  s <> EmptyString -> Banner.firstTruthy (Some s :: rest) last = s.
Proof.
  intros H. simpl. destruct s; [congruence | reflexivity].
Qed.

Lemma firstTruthy_head_empty rest last :
  Banner.firstTruthy (Some EmptyString :: rest) last = Banner.firstTruthy rest last.
Proof. reflexivity. Qed.

(** C3 (as amended).  The title is the first non-empty of: the trimmed
    text of [title], the [og:title] content as written (not trimmed), the
    trimmed text of the first [h1], and the sentinel; whichever wins is cut
    to its first 100 code units.  In particular, for a document without a
    title text whose [og:title] content is not empty, the title is that
    content cut to 100 code units. *)
Theorem C3_title_chain (doc : Cheerio) (hostname : string) :
  let extracted := WebpageContent.title (Banner.pageContent doc hostname) in
  let titleText := Js.trim (text doc SelTitle) in
  let ogTitle := attrContent doc (SelMetaProperty "og:title") in
  let heading := Js.trim (firstText doc SelH1) in
  (titleText <> EmptyString -> extracted = Js.substring0 100 titleText)
  /\ (titleText = EmptyString ->
      forall content, ogTitle = Some content -> content <> EmptyString ->
      extracted = Js.substring0 100 content)
  /\ (titleText = EmptyString -> ogTitle = None \/ ogTitle = Some EmptyString ->
      heading <> EmptyString -> extracted = Js.substring0 100 heading)
  /\ (titleText = EmptyString -> ogTitle = None \/ ogTitle = Some EmptyString ->
      heading = EmptyString -> extracted = "Untitled Page").
Proof.
  cbv zeta. unfold Banner.pageContent. cbn [WebpageContent.title].
  repeat split.
  - intros H. now rewrite firstTruthy_head_truthy.
  - intros H content Hog Hne. rewrite H, firstTruthy_head_empty, Hog.
    now rewrite firstTruthy_head_truthy.
  - intros H Hog Hne. rewrite H, firstTruthy_head_empty.
    destruct (Js.trim (firstText doc SelH1)) as [|c heading]; [congruence|].
    destruct Hog as [Hog | Hog]; rewrite Hog; reflexivity.
  - intros H Hog Hh. rewrite H, Hh.
    destruct Hog as [Hog | Hog]; rewrite Hog; reflexivity.
Qed.

Lemma C3_title_chain_witness :
  Js.trim (text Fixture.ogPage SelTitle) = EmptyString
  /\ attrContent Fixture.ogPage (SelMetaProperty "og:title") = Some " Hello "
  /\ WebpageContent.title (Banner.pageContent Fixture.ogPage "colors.example")
     = Js.substring0 100 " Hello ".
Proof.
  split; [reflexivity|]. split; [reflexivity|].
  apply (proj1 (proj2 (C3_title_chain Fixture.ogPage "colors.example")));
    [reflexivity | reflexivity | discriminate].
Defined.

(** C3 as written fails: without a title element, the page's og:title is
    taken with its surrounding blanks. *)
Lemma C3_counterexample :
  text Fixture.ogPage SelTitle = EmptyString
  /\ attrContent Fixture.ogPage (SelMetaProperty "og:title") = Some " Hello "
  /\ WebpageContent.title (Banner.pageContent Fixture.ogPage "colors.example")
     = " Hello "
  /\ WebpageContent.title (Banner.pageContent Fixture.ogPage "colors.example")
     <> Js.trim " Hello ".
Proof.
  repeat split; try reflexivity. discriminate.
Qed.

(** ** Artifact extraction: the greedy span *)

Section SvgFacts.

Lemma drop_empty (n : nat) : Js.drop n EmptyString = EmptyString.
Proof. destruct n; reflexivity. Qed.

Lemma drop_drop (a b : nat) (s : string) :
  Js.drop a (Js.drop b s) = Js.drop (b + a) s.
Proof.
  revert s. induction b as [|b IH]; intros s; simpl; [reflexivity|].
  destruct s as [|c s]; [apply drop_empty | apply IH].
Qed.

Lemma append_empty_r (s : string) : s ++ EmptyString = s.
Proof. induction s; simpl; congruence. Qed.

Lemma substring0_empty (n : nat) : substring 0 n EmptyString = EmptyString.
Proof. destruct n; reflexivity. Qed.

Lemma substring0_split (a n : nat) (s : string) :
  substring 0 a s ++ substring 0 n (Js.drop a s) = substring 0 (a + n) s.
Proof.
  revert s. induction a as [|a IH]; intros s; simpl.
  - destruct n, s; reflexivity.
  - destruct s as [|c s]; simpl.
    + destruct n; reflexivity.
    + now rewrite IH.
Qed.

Lemma closeAt_empty (j : nat) : ~ Svg.closeAt j EmptyString.
Proof. unfold Svg.closeAt. rewrite drop_empty. discriminate. Qed.

Lemma openAt_empty (i : nat) : ~ Svg.openAt i EmptyString.
Proof. unfold Svg.openAt. rewrite drop_empty. discriminate. Qed.

Lemma closeAt_S (j : nat) (c : ascii) (s : string) :
  Svg.closeAt (S j) (String c s) <-> Svg.closeAt j s.
Proof. reflexivity. Qed.

Lemma openAt_S (i : nat) (c : ascii) (s : string) :
  Svg.openAt (S i) (String c s) <-> Svg.openAt i s.
Proof. reflexivity. Qed.

Lemma greedyClose_None (s : string) :
  Svg.greedyClose s = None -> forall j, ~ Svg.closeAt j s.
Proof.
  induction s as [|d t IHt]; intros Hg j; [apply closeAt_empty|].
  cbn [Svg.greedyClose] in Hg.
  destruct (Svg.greedyClose t) eqn:Ht; [discriminate|].
  destruct (Js.prefixCI "</svg>" (String d t)) eqn:Hd; [discriminate|].
  destruct j as [|j]; [unfold Svg.closeAt; simpl Js.drop; congruence|].
  rewrite closeAt_S. now apply IHt.
Qed.

(** The greedy star stops at the last closing tag. *)
Lemma greedyClose_Some (s r : string) :
  Svg.greedyClose s = Some r ->
  exists j, Svg.closeAt j s
            /\ (forall j', Svg.closeAt j' s -> j' <= j)
            /\ r = substring 0 (j + 6) s.
Proof.
  revert r. induction s as [|c s IH]; intros r; [discriminate|].
  cbn [Svg.greedyClose].
  destruct (Svg.greedyClose s) as [r'|] eqn:Hs.
  - intros [= <-]. destruct (IH r' eq_refl) as (j & Hj & Hmax & ->).
    exists (S j). split; [now apply closeAt_S|]. split; [|reflexivity].
    intros [|j'] Hc; [lia|]. apply closeAt_S, Hmax in Hc. lia.
  - destruct (Js.prefixCI "</svg>" (String c s)) eqn:Hp; [|discriminate].
    intros [= <-]. exists 0. split; [exact Hp|]. split; [|reflexivity].
    intros [|j'] Hc; [lia|]. apply closeAt_S in Hc.
    exfalso. exact (greedyClose_None s Hs j' Hc).
Qed.

Lemma closeAt_drop4 (j : nat) (s : string) :
  Svg.closeAt j (Js.drop 4 s) <-> Svg.closeAt (4 + j) s.
Proof. unfold Svg.closeAt. now rewrite drop_drop. Qed.

Lemma svgAt_Some (s m : string) :
  Svg.svgAt s = Some m ->
  Svg.openAt 0 s
  /\ exists j, 4 <= j /\ Svg.closeAt j s
               /\ (forall j', Svg.closeAt j' s -> j' <= j)
               /\ m = substring 0 (j + 6) s.
Proof.
  unfold Svg.svgAt. destruct (Js.prefixCI "<svg" s) eqn:Hopen; [|discriminate].
  destruct (Svg.greedyClose (Js.drop 4 s)) as [r|] eqn:Hg; [|discriminate].
  intros [= <-]. split; [destruct s; exact Hopen|].
  destruct (greedyClose_Some _ _ Hg) as (k & Hk & Hmax & ->).
  exists (4 + k). split; [lia|]. split; [now apply closeAt_drop4|]. split.
  - intros j' Hj'. destruct (Nat.le_gt_cases 4 j') as [Hge|Hlt]; [|lia].
    replace j' with (4 + (j' - 4)) in Hj' by lia.
    apply closeAt_drop4, Hmax in Hj'. lia.
  - unfold Js.substring0. now rewrite substring0_split.
Qed.

Lemma svgAt_None (s : string) :
  Svg.svgAt s = None ->
  forall j, Svg.openAt 0 s -> Svg.closeAt j s -> 4 <= j -> False.
Proof.
  unfold Svg.svgAt. intros H j Hopen Hclose Hj.
  assert (Hp : Js.prefixCI "<svg" s = true) by (destruct s; exact Hopen).
  rewrite Hp in H.
  destruct (Svg.greedyClose (Js.drop 4 s)) eqn:Hg; [discriminate|].
  apply (greedyClose_None _ Hg (j - 4)). apply closeAt_drop4.
  now replace (4 + (j - 4)) with j by lia.
Qed.

Lemma svgMatch_Some (s m : string) :
  Svg.svgMatch s = Some m -> Svg.spanOf s m.
Proof.
  revert m. induction s as [|c s IH]; intros m.
  - discriminate.
  - cbn [Svg.svgMatch]. destruct (Svg.svgAt (String c s)) as [m0|] eqn:Hat.
    + intros [= <-]. destruct (svgAt_Some _ _ Hat) as (Hopen & j & Hj & Hc & Hmax & ->).
      exists 0, j. repeat split; try assumption; try lia.
      now rewrite Nat.sub_0_r.
    + intros Hm. destruct (IH m Hm) as (i & j & Ho & Hfirst & Hc & Hlast & Hij & ->).
      exists (S i), (S j). repeat split.
      * now apply openAt_S.
      * intros [|i'] Hi'.
        -- exfalso. apply (svgAt_None _ Hat (S j) Hi'); [now apply closeAt_S | lia].
        -- apply openAt_S, Hfirst in Hi'. lia.
      * now apply closeAt_S.
      * intros [|j'] Hj'; [lia|]. apply closeAt_S, Hlast in Hj'. lia.
      * lia.
Qed.

Lemma svgMatch_None (s : string) :
  Svg.svgMatch s = None ->
  forall i j, Svg.openAt i s -> Svg.closeAt j s -> i + 4 <= j -> False.
Proof.
  induction s as [|c s IH]; intros Hm i j Ho Hc Hij.
  - exact (openAt_empty i Ho).
  - cbn [Svg.svgMatch] in Hm.
    destruct (Svg.svgAt (String c s)) eqn:Hat; [discriminate|].
    destruct i as [|i].
    + apply (svgAt_None _ Hat j Ho Hc). lia.
    + destruct j as [|j]; [lia|].
      apply (IH Hm i j); [exact Ho | exact Hc | lia].
Qed.

End SvgFacts.

(** ** The handler *)

Section HandlerFacts.

Variable rt : Runtime.

Ltac run :=
  unfold Eff.tryCatch, Eff.bind, Eff.await, Eff.throw, Eff.ret, Eff.emit.

(** A POST request passes the two method gates. *)
Lemma handler_post env event :
  HandlerEvent.httpMethod event = "POST" ->
  Banner.handler rt env event
  = Eff.tryCatch
      (Eff.bind
         (if Banner.credentialMissing env
          then Eff.throw (JsError "ANTHROPIC_API_KEY environment variable is not set")
          else Eff.ret tt)
         (fun _ =>
            Eff.bind (Eff.await (JSON_parse rt (Banner.bodyText event)))
              (fun parsed =>
                 Eff.bind
                   (match parsed with
                    | JNull => Eff.throw (JsError (TypeError_message rt "destructure null"))
                    | _ => Eff.ret tt
                    end)
                   (fun _ => Banner.validated rt parsed))))
      Banner.failed.
Proof.
  intros H. unfold Banner.handler. rewrite H. reflexivity.
Qed.

(** With the credential and a body that parses to something other than
    [null], the handler is the validation of the parsed value, under the
    catch-all. *)
Lemma handler_parsed env event parsed log :
  HandlerEvent.httpMethod event = "POST" ->
  Banner.credentialMissing env = false ->
  JSON_parse rt (Banner.bodyText event) = inr parsed ->
  parsed <> JNull ->
  Banner.handler rt env event log
  = Eff.tryCatch (Banner.validated rt parsed) Banner.failed log.
Proof.
  intros Hpost Hcred Hparse Hnull. rewrite (handler_post _ _ Hpost).
  run. rewrite Hcred, Hparse.
  destruct parsed; try reflexivity. congruence.
Qed.

Lemma get_Some_not_null parsed key v :
  Value.get parsed key = Some v -> parsed <> JNull.
Proof. intros H ->. discriminate. Qed.

(** C6 (as amended).  While the credential is missing from the
    environment, every POST request is answered 500 with the message that
    names the missing variable, and the only event of its run is the console
    line of the catch-all; a request of another method does not reach the
    credential check: OPTIONS is answered 200 with an empty body and any
    other method 405, the log left as it was.  Whatever the method, the run
    makes no network call. *)
Theorem C6_missing_credential env event log :
  ANTHROPIC_API_KEY env = None ->
  networkCalls (snd (Banner.handler rt env event log)) = networkCalls log
  /\ (HandlerEvent.httpMethod event = "POST" ->
      Banner.handler rt env event log
      = (Return
           (Banner.respond 500
              (ErrorBody "Internal server error"
                 (Some "ANTHROPIC_API_KEY environment variable is not set"))),
         (log ++ [ConsoleError "Function error:"
                    (JsError "ANTHROPIC_API_KEY environment variable is not set")])%list))
  /\ (HandlerEvent.httpMethod event = "OPTIONS" ->
      Banner.handler rt env event log = (Return (Banner.respond 200 EmptyBody), log))
  /\ (HandlerEvent.httpMethod event <> "OPTIONS" ->
      HandlerEvent.httpMethod event <> "POST" ->
      Banner.handler rt env event log
      = (Return (Banner.respond 405 (ErrorBody "Method not allowed" None)), log)).
Proof.
  intros Hcred.
  assert (Hpost : HandlerEvent.httpMethod event = "POST" ->
                  Banner.handler rt env event log
                  = (Return
                       (Banner.respond 500
                          (ErrorBody "Internal server error"
                             (Some "ANTHROPIC_API_KEY environment variable is not set"))),
                     (log ++ [ConsoleError "Function error:"
                                (JsError
                                   "ANTHROPIC_API_KEY environment variable is not set")])%list)).
  { intros Hpost. rewrite (handler_post _ _ Hpost).
    unfold Banner.credentialMissing. rewrite Hcred. reflexivity. }
  split; [|split; [exact Hpost|split]].
  - destruct (String.eqb (HandlerEvent.httpMethod event) "POST") eqn:Hm.
    + apply String.eqb_eq in Hm. rewrite (Hpost Hm). cbn [snd].
      unfold networkCalls. rewrite filter_app. cbn. apply app_nil_r.
    + unfold Banner.handler. rewrite Hm.
      destruct (String.eqb (HandlerEvent.httpMethod event) "OPTIONS"); reflexivity.
  - intros Hm. unfold Banner.handler. rewrite Hm. reflexivity.
  - intros Ho Hp. apply String.eqb_neq in Ho, Hp.
    unfold Banner.handler. now rewrite Ho, Hp.
Qed.

(** C5 (as amended).  For every POST request handled with the credential
    set, whose body (the text [{}] when the body is empty or absent)
    parses to a value other than [null] in which [url] or [template] is
    absent or otherwise falsy, the answer is 400 with the error
    "URL and template are required", and the run leaves no event: neither
    the fetch nor the generation takes place. *)
Theorem C5_missing_fields env event parsed log :
  HandlerEvent.httpMethod event = "POST" ->
  Banner.credentialMissing env = false ->
  JSON_parse rt (Banner.bodyText event) = inr parsed ->
  parsed <> JNull ->
  Value.truthyU (Value.get parsed "url") = false
  \/ Value.truthyU (Value.get parsed "template") = false ->
  Banner.handler rt env event log
  = (Return (Banner.respond 400 (ErrorBody "URL and template are required" None)),
     log).
Proof.
  intros Hpost Hcred Hparse Hnull Hfield.
  rewrite (handler_parsed _ _ _ _ Hpost Hcred Hparse Hnull).
  run. unfold Banner.validated.
  destruct (Value.get parsed "url") as [u|], (Value.get parsed "template") as [t|];
    try reflexivity.
  cbn [Value.truthyU] in Hfield.
  destruct Hfield as [H | H]; rewrite H; cbn [negb orb]; [reflexivity|].
  rewrite orb_true_r. reflexivity.
Qed.

(** C7 (as amended).  For every POST request handled with the credential
    set, whose body parses to an object with a truthy [url] and a truthy
    [template], and whose [url] the URL constructor rejects, the answer is
    400 with the error "Invalid URL provided", and the run leaves no
    event: the fetcher is never invoked. *)
Theorem C7_invalid_url env event parsed u t log :
  HandlerEvent.httpMethod event = "POST" ->
  Banner.credentialMissing env = false ->
  JSON_parse rt (Banner.bodyText event) = inr parsed ->
  Value.get parsed "url" = Some u ->
  Value.get parsed "template" = Some t ->
  Value.truthy u = true ->
  Value.truthy t = true ->
  URL_hostname rt u = None ->
  Banner.handler rt env event log
  = (Return (Banner.respond 400 (ErrorBody "Invalid URL provided" None)), log).
Proof.
  intros Hpost Hcred Hparse Hu Ht Htu Htt Hurl.
  rewrite (handler_parsed _ _ _ _ Hpost Hcred Hparse (get_Some_not_null _ _ _ Hu)).
  run. unfold Banner.validated. rewrite Hu, Ht, Htu, Htt, Hurl. reflexivity.
Qed.

(** C10.  For a POST request handled with the credential set: a body that
    is present (not empty) and that [JSON.parse] rejects is answered 500
    with the error "Internal server error" and the parser's message, not
    400; an absent or empty body stands for the text [{}], which has
    neither field, and is answered 400 "URL and template are required". *)
Theorem C10_unparsable_body env event log :
  HandlerEvent.httpMethod event = "POST" ->
  Banner.credentialMissing env = false ->
  (forall source error,
      HandlerEvent.body event = Some source ->
      source <> EmptyString ->
      JSON_parse rt source = inl error ->
      Banner.handler rt env event log
      = (Return
           (Banner.respond 500
              (ErrorBody "Internal server error" (Some (Banner.errorMessage error)))),
         (log ++ [ConsoleError "Function error:" error])%list))
  /\ (HandlerEvent.body event = None \/ HandlerEvent.body event = Some EmptyString ->
      JSON_parse rt "{}" = inr (JObj []) ->
      Banner.handler rt env event log
      = (Return (Banner.respond 400 (ErrorBody "URL and template are required" None)),
         log)).
Proof.
  intros Hpost Hcred. split.
  - intros source error Hbody Hne Hparse.
    rewrite (handler_post _ _ Hpost). run. rewrite Hcred.
    unfold Banner.bodyText. rewrite Hbody.
    destruct source as [|c source]; [congruence|].
    cbn [Banner.firstTruthy Js.truthy]. rewrite Hparse. reflexivity.
  - intros Hbody Hparse.
    assert (Htext : Banner.bodyText event = "{}").
    { unfold Banner.bodyText. destruct Hbody as [-> | ->]; reflexivity. }
    rewrite <- Htext in Hparse.
    rewrite (handler_parsed _ _ _ _ Hpost Hcred Hparse); [reflexivity | discriminate].
Qed.

(** *** Extraction failures *)

Lemma extract_fails u cause log :
  Banner.extractionFails rt u cause ->
  Banner.extractWebpageContent rt u log
  = (Throw (JsError "Failed to analyze webpage content"),
     (log ++ [Fetched u; ConsoleError "Error extracting webpage content:" cause])%list).
Proof.
  intros H. unfold Banner.extractWebpageContent. run.
  destruct H as [e He | r Hr Hok | r e Hr Hok He | r html e Hr Hok Hhtml He];
    rewrite ?He, ?Hr; cbn iota beta; rewrite ?Hok; cbn [negb];
    rewrite ?He, ?Hhtml; cbn iota beta; rewrite ?He;
    now rewrite <- app_assoc.
Qed.

(** C9 (as amended).  For every failure of the fetch or of the parsing (a
    rejected fetch such as a timeout, a non-success status, an unreadable
    text, a document that cannot be loaded) in a request that reaches the
    extraction, the cause is written to the console and a plain [Error] with
    the fixed message "Failed to analyze webpage content" is thrown in its
    place, the same for every page URL; the handler answers 500 with the
    error "Internal server error" and that message. *)
Theorem C9_extraction_failure env event parsed u t hostname cause log :
  HandlerEvent.httpMethod event = "POST" ->
  Banner.credentialMissing env = false ->
  JSON_parse rt (Banner.bodyText event) = inr parsed ->
  Value.get parsed "url" = Some u ->
  Value.get parsed "template" = Some t ->
  Value.truthy u = true ->
  Value.truthy t = true ->
  URL_hostname rt u = Some hostname ->
  Banner.extractionFails rt u cause ->
  Banner.extractWebpageContent rt u log
  = (Throw (JsError "Failed to analyze webpage content"),
     (log ++ [Fetched u; ConsoleError "Error extracting webpage content:" cause])%list)
  /\ Banner.handler rt env event log
     = (Return
          (Banner.respond 500
             (ErrorBody "Internal server error"
                (Some "Failed to analyze webpage content"))),
        ((log ++ [Fetched u; ConsoleError "Error extracting webpage content:" cause])
           ++ [ConsoleError "Function error:"
                 (JsError "Failed to analyze webpage content")])%list).
Proof.
  intros Hpost Hcred Hparse Hu Ht Htu Htt Hurl Hfail.
  pose proof (extract_fails u cause log Hfail) as Hx. split; [exact Hx|].
  rewrite (handler_parsed _ _ _ _ Hpost Hcred Hparse (get_Some_not_null _ _ _ Hu)).
  unfold Banner.validated. rewrite Hu, Ht, Htu, Htt, Hurl. cbn [negb orb].
  unfold Eff.tryCatch at 1. unfold Eff.bind at 1. rewrite Hx. reflexivity.
Qed.

(** *** Generation *)

(** A template that cannot be converted to a string stops the function
    before the [try]: no call is made and the TypeError is not replaced. *)
Lemma generate_unconvertible content t log :
  Value.toString (Number_toString rt) t = None ->
  Banner.generateBannerWithAI rt content t log
  = (Throw (JsError (TypeError_message rt "template to string")), log).
Proof.
  intros Hkey. unfold Banner.generateBannerWithAI. rewrite Hkey. reflexivity.
Qed.

Lemma generate_run content t key log blocks raw :
  Value.toString (Number_toString rt) t = Some key ->
  messages_create rt content t = inr blocks ->
  Banner.firstBlockText blocks = Some raw ->
  Banner.generateBannerWithAI rt content t log
  = match Svg.svgMatch raw with
    | Some fragment => (Return fragment, (log ++ [Generated content t])%list)
    | None =>
        (Throw (JsError "Failed to generate banner with AI"),
         ((log ++ [Generated content t])
            ++ [ConsoleError "Error generating banner with AI:"
                  (JsError "No valid SVG found in AI response")])%list)
    end.
Proof.
  intros Hkey Hcreate Hfirst. unfold Banner.generateBannerWithAI. rewrite Hkey. run.
  rewrite Hcreate, Hfirst. destruct (Svg.svgMatch raw); reflexivity.
Qed.

Lemma generate_inv content t log svg log' :
  Banner.generateBannerWithAI rt content t log = (Return svg, log') ->
  exists blocks raw,
    messages_create rt content t = inr blocks
    /\ Banner.firstBlockText blocks = Some raw
    /\ Svg.svgMatch raw = Some svg
    /\ log' = (log ++ [Generated content t])%list.
Proof.
  unfold Banner.generateBannerWithAI.
  destruct (Value.toString (Number_toString rt) t) as [key|]; [|discriminate].
  run.
  destruct (messages_create rt content t) as [e|blocks] eqn:Hc; [discriminate|].
  destruct (Banner.firstBlockText blocks) as [raw|] eqn:Hf; [|discriminate].
  destruct (Svg.svgMatch raw) as [m|] eqn:Hm; [|discriminate].
  intros [= <- <-]. now exists blocks, raw.
Qed.

(** *** Color resolution *)

Lemma templateOfKey_name (t : Template) : templateOfKey (templateName t) = Some t.
Proof. destruct t; reflexivity. Qed.

Lemma paletteMember_named tv (t : Template) :
  Value.toString (Number_toString rt) tv = Some (templateName t) ->
  Banner.paletteMember rt tv = Some (Banner.OwnPalette (Banner.defaultColorPalettes t)).
Proof.
  intros Hkey. unfold Banner.paletteMember, Banner.memberOfKey.
  rewrite Hkey. cbn [option_map]. now rewrite templateOfKey_name.
Qed.

Lemma paletteMember_declared (t : Template) :
  Banner.paletteMember rt (JStr (templateName t))
  = Some (Banner.OwnPalette (Banner.defaultColorPalettes t)).
Proof. now apply paletteMember_named. Qed.

Lemma resolveColors_log t extracted log :
  snd (Banner.resolveColors rt t extracted log) = log.
Proof.
  unfold Banner.resolveColors.
  destruct (Banner.paletteMember rt t) as [member|]; [|reflexivity].
  destruct (2 <=? List.length extracted); [reflexivity|].
  destruct (List.length extracted =? 1); [|reflexivity].
  destruct member; reflexivity.
Qed.

(** The table is indexed before anything else: a template that cannot be
    converted to a key stops the resolution, whatever was extracted. *)
Lemma resolveColors_unconvertible t extracted log :
  Value.toString (Number_toString rt) t = None ->
  Banner.resolveColors rt t extracted log
  = (Throw (JsError (TypeError_message rt "template to key")), log).
Proof.
  intros Hkey. unfold Banner.resolveColors, Banner.paletteMember.
  rewrite Hkey. reflexivity.
Qed.

Lemma resolveColors_converts t extracted log colors log' :
  Banner.resolveColors rt t extracted log = (Return colors, log') ->
  exists key, Value.toString (Number_toString rt) t = Some key.
Proof.
  destruct (Value.toString (Number_toString rt) t) as [key|] eqn:Hkey; [eauto|].
  rewrite (resolveColors_unconvertible _ _ _ Hkey). discriminate.
Qed.

Lemma resolveColors_named tv (t : Template) extracted log :
  Value.toString (Number_toString rt) tv = Some (templateName t) ->
  Banner.resolveColors rt tv extracted log
  = (Return
       (ColorArray
          match extracted with
          | [] => map Some (Banner.defaultColorPalettes t)
          | [c] => [Some c; nth_error (Banner.defaultColorPalettes t) 1]
          | c1 :: c2 :: _ => [Some c1; Some c2]
          end),
     log).
Proof.
  intros Hkey. unfold Banner.resolveColors. rewrite (paletteMember_named _ _ Hkey).
  destruct extracted as [|c1 [|c2 rest]]; reflexivity.
Qed.

Lemma resolveColors_declared (t : Template) extracted log :
  Banner.resolveColors rt (JStr (templateName t)) extracted log
  = (Return
       (ColorArray
          match extracted with
          | [] => map Some (Banner.defaultColorPalettes t)
          | [c] => [Some c; nth_error (Banner.defaultColorPalettes t) 1]
          | c1 :: c2 :: _ => [Some c1; Some c2]
          end),
     log).
Proof. now apply resolveColors_named. Qed.

(** *** What a produced result comes from *)

Lemma failed_no_result error log resp log' result :
  Banner.failed error log = (Return resp, log') ->
  Response.body resp <> ResultBody result.
Proof. unfold Banner.failed. run. intros [= <- _]. discriminate. Qed.

Lemma validated_result_inv parsed log resp log' result :
  Eff.tryCatch (Banner.validated rt parsed) Banner.failed log = (Return resp, log') ->
  Response.body resp = ResultBody result ->
  exists u t content log1 colors svg,
    Value.get parsed "url" = Some u
    /\ Value.get parsed "template" = Some t
    /\ Banner.extractWebpageContent rt u log = (Return content, log1)
    /\ Banner.resolveColors rt t (WebpageContent.extractedColors content) log1
       = (Return colors, log1)
    /\ Banner.generateBannerWithAI rt content t log1 = (Return svg, log')
    /\ result
       = {| AnalysisResult.title := WebpageContent.title content;
            AnalysisResult.description := WebpageContent.description content;
            AnalysisResult.colors := colors;
            AnalysisResult.keywords := WebpageContent.keywords content;
            AnalysisResult.svgContent := svg |}.
Proof.
  unfold Banner.validated.
  destruct (Value.get parsed "url") as [u|];
    [|destruct (Value.get parsed "template"); intros [= <- _]; discriminate].
  destruct (Value.get parsed "template") as [t|]; [|intros [= <- _]; discriminate].
  destruct (negb (Value.truthy u) || negb (Value.truthy t));
    [intros [= <- _]; discriminate|].
  destruct (URL_hostname rt u); [|intros [= <- _]; discriminate].
  unfold Eff.tryCatch at 1. unfold Eff.bind at 1.
  destruct (Banner.extractWebpageContent rt u log) as [[content|e] log1] eqn:Hx;
    [|intros H Hb; exfalso; exact (failed_no_result _ _ _ _ _ H Hb)].
  unfold Eff.bind at 1.
  pose proof (resolveColors_log t (WebpageContent.extractedColors content) log1) as Hlog.
  destruct (Banner.resolveColors rt t (WebpageContent.extractedColors content) log1)
    as [[colors|e] log2] eqn:Hc; cbn [snd] in Hlog; subst log2;
    [|intros H Hb; exfalso; exact (failed_no_result _ _ _ _ _ H Hb)].
  unfold Eff.bind at 1.
  destruct (Banner.generateBannerWithAI rt content t log1) as [[svg|e] log3] eqn:Hg;
    [|intros H Hb; exfalso; exact (failed_no_result _ _ _ _ _ H Hb)].
  unfold Eff.ret. intros [= <- <-] [= <-].
  exists u, t, content, log1, colors, svg. repeat split; assumption.
Qed.

Lemma handler_result_inv env event log resp log' result :
  Banner.handler rt env event log = (Return resp, log') ->
  Response.body resp = ResultBody result ->
  exists parsed,
    HandlerEvent.httpMethod event = "POST"
    /\ Banner.credentialMissing env = false
    /\ JSON_parse rt (Banner.bodyText event) = inr parsed
    /\ Eff.tryCatch (Banner.validated rt parsed) Banner.failed log = (Return resp, log').
Proof.
  intros H Hb. unfold Banner.handler in H.
  destruct (String.eqb (HandlerEvent.httpMethod event) "OPTIONS");
    [injection H as <- _; discriminate|].
  destruct (String.eqb (HandlerEvent.httpMethod event) "POST") eqn:Hpost;
    [|injection H as <- _; discriminate].
  apply String.eqb_eq in Hpost. cbn [negb] in H.
  unfold Eff.tryCatch at 1 in H. unfold Eff.bind at 1 in H.
  destruct (Banner.credentialMissing env) eqn:Hcred;
    [exfalso; exact (failed_no_result _ _ _ _ _ H Hb)|].
  unfold Eff.ret at 1 in H. unfold Eff.bind at 1 in H.
  destruct (JSON_parse rt (Banner.bodyText event)) as [e|parsed] eqn:Hparse;
    [exfalso; exact (failed_no_result _ _ _ _ _ H Hb)|].
  exists parsed. repeat split; try assumption.
  unfold Eff.await, Eff.ret in H. unfold Eff.bind at 1 in H.
  destruct parsed; try exact H.
  exfalso. exact (failed_no_result _ _ _ _ _ H Hb).
Qed.

(** C2 (as amended).  For every request whose template names one of the
    four declared templates (its value converts to that name, as the string
    itself does) and whose page is extracted, the colors are resolved as
    the policy says: with no extracted color the template's default pair
    unchanged, with exactly one that color followed by the template's
    default second color, with two or more the first two extracted colors;
    in every case a list of exactly two colors.  The resolution returns
    that list, a generation that succeeds makes the handler answer 200 with
    that list as [colors], and no result of the request has other colors. *)
Theorem C2_colors_resolution
  env event parsed u tv (t : Template) hostname content log log1 :
  HandlerEvent.httpMethod event = "POST" ->
  Banner.credentialMissing env = false ->
  JSON_parse rt (Banner.bodyText event) = inr parsed ->
  Value.get parsed "url" = Some u ->
  Value.get parsed "template" = Some tv ->
  Value.truthy u = true ->
  Value.truthy tv = true ->
  Value.toString (Number_toString rt) tv = Some (templateName t) ->
  URL_hostname rt u = Some hostname ->
  Banner.extractWebpageContent rt u log = (Return content, log1) ->
  exists first second,
    Banner.defaultColorPalettes t = [first; second]
    /\ let colors :=
         Policy.resolved (first, second) (WebpageContent.extractedColors content) in
       List.length colors = 2
       /\ Banner.resolveColors rt tv (WebpageContent.extractedColors content) log1
          = (Return (ColorArray (map Some colors)), log1)
       /\ (forall svg log',
              Banner.generateBannerWithAI rt content tv log1 = (Return svg, log') ->
              Banner.handler rt env event log
              = (Return
                   (Banner.respond 200
                      (ResultBody
                         {| AnalysisResult.title := WebpageContent.title content;
                            AnalysisResult.description :=
                              WebpageContent.description content;
                            AnalysisResult.colors := ColorArray (map Some colors);
                            AnalysisResult.keywords := WebpageContent.keywords content;
                            AnalysisResult.svgContent := svg |})),
                 log'))
       /\ (forall resp log' result,
              Banner.handler rt env event log = (Return resp, log') ->
              Response.body resp = ResultBody result ->
              AnalysisResult.colors result = ColorArray (map Some colors)).
Proof.
  intros Hpost Hcred Hparse Hu Ht Htu Htt Hkey Hurl Hx.
  assert (Hpair : exists first second, Banner.defaultColorPalettes t = [first; second]).
  { destruct t; cbn; eauto. }
  destruct Hpair as (first & second & Hpair).
  exists first, second. split; [exact Hpair|]. cbv zeta.
  assert (Hc : Banner.resolveColors rt tv (WebpageContent.extractedColors content) log1
               = (Return
                    (ColorArray
                       (map Some
                          (Policy.resolved (first, second)
                             (WebpageContent.extractedColors content)))),
                  log1)).
  { rewrite (resolveColors_named _ _ _ _ Hkey), Hpair.
    destruct (WebpageContent.extractedColors content) as [|c1 [|c2 rest]]; reflexivity. }
  assert (Hrun : Banner.handler rt env event log
                 = Eff.tryCatch
                     (Eff.bind (Banner.generateBannerWithAI rt content tv)
                        (fun svgContent =>
                           Eff.ret
                             (Banner.respond 200
                                (ResultBody
                                   {| AnalysisResult.title := WebpageContent.title content;
                                      AnalysisResult.description :=
                                        WebpageContent.description content;
                                      AnalysisResult.colors :=
                                        ColorArray
                                          (map Some
                                             (Policy.resolved (first, second)
                                                (WebpageContent.extractedColors
                                                   content)));
                                      AnalysisResult.keywords :=
                                        WebpageContent.keywords content;
                                      AnalysisResult.svgContent := svgContent |}))))
                     Banner.failed log1).
  { rewrite (handler_parsed _ _ _ _ Hpost Hcred Hparse (get_Some_not_null _ _ _ Hu)).
    unfold Banner.validated. rewrite Hu, Ht, Htu, Htt, Hurl. cbn [negb orb].
    unfold Eff.tryCatch. unfold Eff.bind at 1. rewrite Hx.
    unfold Eff.bind at 1. rewrite Hc. reflexivity. }
  split; [|split; [exact Hc|split]].
  - destruct (WebpageContent.extractedColors content) as [|c1 [|c2 rest]]; reflexivity.
  - intros svg log' Hg. rewrite Hrun. unfold Eff.tryCatch, Eff.bind. rewrite Hg.
    reflexivity.
  - intros resp log' result Hh Hbody. rewrite Hrun in Hh.
    unfold Eff.tryCatch, Eff.bind in Hh.
    destruct (Banner.generateBannerWithAI rt content tv log1) as [[svg|e] log2].
    + unfold Eff.ret in Hh. injection Hh as <- _. cbn in Hbody.
      injection Hbody as <-. reflexivity.
    + exfalso. exact (failed_no_result _ _ _ _ _ Hh Hbody).
Qed.

(** C4.  In a request that reaches the generation, the text of the answer
    is matched against the pattern: when it matches, the result carries
    the span from the first opening tag to the end of the last closing
    tag, compared without regard to letter case, and nothing around it;
    when no opening tag is followed by a closing tag, the generation fails
    with the error "Failed to generate banner with AI", the handler answers
    500 instead of producing a result, and the run has made one generation
    call only. *)
Theorem C4_artifact_validation
  env event parsed u t hostname content log log1 colors blocks raw :
  HandlerEvent.httpMethod event = "POST" ->
  Banner.credentialMissing env = false ->
  JSON_parse rt (Banner.bodyText event) = inr parsed ->
  Value.get parsed "url" = Some u ->
  Value.get parsed "template" = Some t ->
  Value.truthy u = true ->
  Value.truthy t = true ->
  URL_hostname rt u = Some hostname ->
  Banner.extractWebpageContent rt u log = (Return content, log1) ->
  Banner.resolveColors rt t (WebpageContent.extractedColors content) log1
  = (Return colors, log1) ->
  messages_create rt content t = inr blocks ->
  Banner.firstBlockText blocks = Some raw ->
  match Svg.svgMatch raw with
  | Some fragment =>
      Svg.spanOf raw fragment
      /\ Banner.handler rt env event log
         = (Return
              (Banner.respond 200
                 (ResultBody
                    {| AnalysisResult.title := WebpageContent.title content;
                       AnalysisResult.description := WebpageContent.description content;
                       AnalysisResult.colors := colors;
                       AnalysisResult.keywords := WebpageContent.keywords content;
                       AnalysisResult.svgContent := fragment |})),
            (log1 ++ [Generated content t])%list)
  | None =>
      (forall i j, Svg.openAt i raw -> Svg.closeAt j raw -> i + 4 <= j -> False)
      /\ Banner.generateBannerWithAI rt content t log1
         = (Throw (JsError "Failed to generate banner with AI"),
            ((log1 ++ [Generated content t])
               ++ [ConsoleError "Error generating banner with AI:"
                     (JsError "No valid SVG found in AI response")])%list)
      /\ Banner.handler rt env event log
         = (Return
              (Banner.respond 500
                 (ErrorBody "Internal server error"
                    (Some "Failed to generate banner with AI"))),
            (((log1 ++ [Generated content t])
                ++ [ConsoleError "Error generating banner with AI:"
                      (JsError "No valid SVG found in AI response")])
               ++ [ConsoleError "Function error:"
                     (JsError "Failed to generate banner with AI")])%list)
  end.
Proof.
  intros Hpost Hcred Hparse Hu Ht Htu Htt Hurl Hx Hc Hcreate Hfirst.
  destruct (resolveColors_converts _ _ _ _ _ Hc) as [key Hkey].
  pose proof (generate_run content t key log1 blocks raw Hkey Hcreate Hfirst) as Hg.
  assert (Hrun : Banner.handler rt env event log
                 = Eff.tryCatch
                     (Eff.bind (Banner.generateBannerWithAI rt content t)
                        (fun svgContent =>
                           Eff.ret
                             (Banner.respond 200
                                (ResultBody
                                   {| AnalysisResult.title := WebpageContent.title content;
                                      AnalysisResult.description :=
                                        WebpageContent.description content;
                                      AnalysisResult.colors := colors;
                                      AnalysisResult.keywords :=
                                        WebpageContent.keywords content;
                                      AnalysisResult.svgContent := svgContent |}))))
                     Banner.failed log1).
  { rewrite (handler_parsed _ _ _ _ Hpost Hcred Hparse (get_Some_not_null _ _ _ Hu)).
    unfold Banner.validated. rewrite Hu, Ht, Htu, Htt, Hurl. cbn [negb orb].
    unfold Eff.tryCatch. unfold Eff.bind at 1. rewrite Hx.
    unfold Eff.bind at 1. rewrite Hc. reflexivity. }
  rewrite Hrun. unfold Eff.tryCatch, Eff.bind. rewrite Hg.
  destruct (Svg.svgMatch raw) as [fragment|] eqn:Hm.
  - split; [now apply svgMatch_Some | reflexivity].
  - split; [now apply svgMatch_None|]. split; reflexivity.
Qed.

End HandlerFacts.

(** ** The handler on concrete requests *)

Lemma C6_missing_credential_witness :
  networkCalls
    (snd (Banner.handler Fixture.runtime Fixture.withoutKey
            (Fixture.post [("url", "https://example.com"); ("template", "bold")]) []))
  = networkCalls []
  /\ Banner.handler Fixture.runtime Fixture.withoutKey
       (Fixture.post [("url", "https://example.com"); ("template", "bold")]) []
     = (Return
          (Banner.respond 500
             (ErrorBody "Internal server error"
                (Some "ANTHROPIC_API_KEY environment variable is not set"))),
        [ConsoleError "Function error:"
           (JsError "ANTHROPIC_API_KEY environment variable is not set")]).
Proof.
  destruct (C6_missing_credential Fixture.runtime Fixture.withoutKey
              (Fixture.post [("url", "https://example.com"); ("template", "bold")]) []
              eq_refl) as (Hnet & Hpost & _).
  split; [exact Hnet | exact (Hpost eq_refl)].
Defined.

(** Requests handled while the credential is missing that are not answered
    500: the method is looked at first (lines 165-179), so a preflight gets
    200 and a GET gets 405, the credential never being read. *)
Lemma C6_counterexample :
  ANTHROPIC_API_KEY Fixture.withoutKey = None
  /\ Banner.handler Fixture.runtime Fixture.withoutKey
       {| HandlerEvent.httpMethod := "OPTIONS"; HandlerEvent.body := None |} []
     = (Return (Banner.respond 200 EmptyBody), [])
  /\ Banner.handler Fixture.runtime Fixture.withoutKey
       {| HandlerEvent.httpMethod := "GET";
          HandlerEvent.body :=
            Some (Fixture.objectText
                    [("url", "https://example.com"); ("template", "bold")]) |} []
     = (Return (Banner.respond 405 (ErrorBody "Method not allowed" None)), []).
Proof. repeat split; reflexivity. Qed.

Lemma C5_missing_fields_witness :
  Banner.handler Fixture.runtime Fixture.withKey
    (Fixture.post [("template", "modern")]) []
  = (Return (Banner.respond 400 (ErrorBody "URL and template are required" None)), []).
Proof.
  apply (C5_missing_fields Fixture.runtime Fixture.withKey
           (Fixture.post [("template", "modern")])
           (Fixture.objectValue [("template", "modern")]) []);
    [reflexivity | reflexivity | reflexivity | discriminate | left; reflexivity].
Defined.

(** C5 as written fails: a POST request without [url] is answered 500 when
    the credential is missing, and a body [null], which has neither field, is
    answered 500 as well. *)
Lemma C5_counterexample :
  Value.get (Fixture.objectValue [("template", "modern")]) "url" = None
  /\ JSON_parse Fixture.runtime
       (Banner.bodyText (Fixture.post [("template", "modern")]))
     = inr (Fixture.objectValue [("template", "modern")])
  /\ fst (Banner.handler Fixture.runtime Fixture.withoutKey
            (Fixture.post [("template", "modern")]) [])
     = Return
         (Banner.respond 500
            (ErrorBody "Internal server error"
               (Some "ANTHROPIC_API_KEY environment variable is not set")))
  /\ Value.get JNull "url" = None
  /\ JSON_parse Fixture.runtime (Banner.bodyText (Fixture.postText (Some "null")))
     = inr JNull
  /\ fst (Banner.handler Fixture.runtime Fixture.withKey
            (Fixture.postText (Some "null")) [])
     = Return
         (Banner.respond 500
            (ErrorBody "Internal server error" (Some "TypeError: destructure null"))).
Proof.
  repeat split; reflexivity.
Qed.

Lemma C7_invalid_url_witness :
  Banner.handler Fixture.runtime Fixture.withKey
    (Fixture.post [("url", "not a url"); ("template", "modern")]) []
  = (Return (Banner.respond 400 (ErrorBody "Invalid URL provided" None)), []).
Proof.
  apply (C7_invalid_url Fixture.runtime Fixture.withKey
           (Fixture.post [("url", "not a url"); ("template", "modern")])
           (Fixture.objectValue [("url", "not a url"); ("template", "modern")])
           (JStr "not a url") (JStr "modern") []);
    reflexivity.
Defined.

(** C7 as written fails: a POST request whose [url] the URL constructor
    rejects is answered with the other 400 when [template] is absent, and
    with 500 when the credential is missing. *)
Lemma C7_counterexample :
  URL_hostname Fixture.runtime (JStr "not a url") = None
  /\ fst (Banner.handler Fixture.runtime Fixture.withKey
            (Fixture.post [("url", "not a url")]) [])
     = Return (Banner.respond 400 (ErrorBody "URL and template are required" None))
  /\ fst (Banner.handler Fixture.runtime Fixture.withoutKey
            (Fixture.post [("url", "not a url"); ("template", "modern")]) [])
     = Return
         (Banner.respond 500
            (ErrorBody "Internal server error"
               (Some "ANTHROPIC_API_KEY environment variable is not set"))).
Proof.
  repeat split; reflexivity.
Qed.

Lemma C10_unparsable_body_witness :
  Banner.handler Fixture.runtime Fixture.withKey (Fixture.postText (Some "{url:")) []
  = (Return
       (Banner.respond 500
          (ErrorBody "Internal server error" (Some "Unexpected token in JSON"))),
     [ConsoleError "Function error:" (JsError "Unexpected token in JSON")])
  /\ Banner.handler Fixture.runtime Fixture.withKey (Fixture.postText None) []
     = (Return (Banner.respond 400 (ErrorBody "URL and template are required" None)),
        []).
Proof.
  split.
  - apply (proj1 (C10_unparsable_body Fixture.runtime Fixture.withKey
                    (Fixture.postText (Some "{url:")) [] eq_refl eq_refl)
             "{url:" (JsError "Unexpected token in JSON"));
      [reflexivity | discriminate | reflexivity].
  - apply (proj2 (C10_unparsable_body Fixture.runtime Fixture.withKey
                    (Fixture.postText None) [] eq_refl eq_refl));
      [left; reflexivity | reflexivity].
Defined.

Lemma C9_extraction_failure_witness :
  Banner.extractWebpageContent Fixture.runtime (JStr "https://down.example") []
  = (Throw (JsError "Failed to analyze webpage content"),
     [Fetched (JStr "https://down.example");
      ConsoleError "Error extracting webpage content:" (JsError "network timeout")])
  /\ Banner.handler Fixture.runtime Fixture.withKey
       (Fixture.post [("url", "https://down.example"); ("template", "modern")]) []
     = (Return
          (Banner.respond 500
             (ErrorBody "Internal server error"
                (Some "Failed to analyze webpage content"))),
        [Fetched (JStr "https://down.example");
         ConsoleError "Error extracting webpage content:" (JsError "network timeout");
         ConsoleError "Function error:" (JsError "Failed to analyze webpage content")]).
Proof.
  apply (C9_extraction_failure Fixture.runtime Fixture.withKey
           (Fixture.post [("url", "https://down.example"); ("template", "modern")])
           (Fixture.objectValue [("url", "https://down.example"); ("template", "modern")])
           (JStr "https://down.example") (JStr "modern") "down.example"
           (JsError "network timeout") []);
    try reflexivity.
  apply Banner.FetchRejected. reflexivity.
Defined.

(** C9 as written fails: the error that leaves the extraction is the same
    for two different pages, and its message does not contain the page
    URL. *)
Lemma C9_counterexample :
  Banner.extractWebpageContent Fixture.runtime (JStr "https://down.example") []
  = (Throw (JsError "Failed to analyze webpage content"),
     [Fetched (JStr "https://down.example");
      ConsoleError "Error extracting webpage content:" (JsError "network timeout")])
  /\ fst (Banner.extractWebpageContent Fixture.runtime
            (JStr "https://missing.example") [])
     = Throw (JsError "Failed to analyze webpage content")
  /\ JStr "https://down.example" <> JStr "https://missing.example"
  /\ Js.stringIncludes "https://down.example" "Failed to analyze webpage content"
     = false.
Proof.
  repeat split; try reflexivity. discriminate.
Qed.


Ltac discharge H :=
  repeat match type of H with
         | ?A -> _ =>
             let h := fresh in
             assert (h : A) by (vm_compute; reflexivity);
             specialize (H h); clear h
         end.

Ltac resolved H :=
  let first := fresh "first" in
  let second := fresh "second" in
  let Hpair := fresh "Hpair" in
  destruct H as (first & second & Hpair & _ & _ & H & _);
  cbn in Hpair; injection Hpair as <- <-;
  etransitivity; [apply H; vm_compute; reflexivity | vm_compute; reflexivity].

Lemma C2_colors_resolution_witness :
  Banner.handler Fixture.runtime Fixture.withKey
    (Fixture.post [("url", "https://example.com"); ("template", "bold")]) []
  = (Return
       (Banner.respond 200
          (ResultBody
             {| AnalysisResult.title := "Example";
                AnalysisResult.description := "Hello world and more.";
                AnalysisResult.colors := ColorArray [Some "#EF4444"; Some "#F59E0B"];
                AnalysisResult.keywords := [];
                AnalysisResult.svgContent :=
                  "<svg viewBox='0 0 1200 630'><text>Hi</text></SVG>" |})),
     [Fetched (JStr "https://example.com");
      Generated (Banner.pageContent Fixture.examplePage "example.com") (JStr "bold")])
  /\ Banner.handler Fixture3.runtime Fixture.withKey
       (Fixture.post Fixture3.oneColorBody) []
     = (Return
          (Banner.respond 200
             (ResultBody
                {| AnalysisResult.title := "One";
                   AnalysisResult.description := "No description available";
                   AnalysisResult.colors := ColorArray [Some "#10B981"; Some "#EC4899"];
                   AnalysisResult.keywords := ["ai"; "tools"; "ai"];
                   AnalysisResult.svgContent :=
                     "<svg viewBox='0 0 1200 630'><text>Hi</text></SVG>" |})),
        [Fetched (JStr "https://one.example");
         Generated (Banner.pageContent Fixture2.oneColorPage "one.example")
           (JStr "gradient")])
  /\ Banner.handler Fixture3.runtime Fixture.withKey
       (Fixture.post Fixture3.threeColorBody) []
     = (Return
          (Banner.respond 200
             (ResultBody
                {| AnalysisResult.title := "Three";
                   AnalysisResult.description := "No description available";
                   AnalysisResult.colors := ColorArray [Some "#111111"; Some "#222222"];
                   AnalysisResult.keywords := [];
                   AnalysisResult.svgContent :=
                     "<svg viewBox='0 0 1200 630'><text>Hi</text></SVG>" |})),
        [Fetched (JStr "https://three.example");
         Generated (Banner.pageContent Fixture3.threeColorPage "three.example")
           (JStr "minimal")]).
Proof.
  split; [|split].
  - pose proof (C2_colors_resolution Fixture.runtime Fixture.withKey
                  (Fixture.post [("url", "https://example.com"); ("template", "bold")])
                  (Fixture.objectValue
                     [("url", "https://example.com"); ("template", "bold")])
                  (JStr "https://example.com") (JStr "bold") bold "example.com"
                  (Banner.pageContent Fixture.examplePage "example.com")
                  [] [Fetched (JStr "https://example.com")]) as H.
    discharge H. resolved H.
  - pose proof (C2_colors_resolution Fixture3.runtime Fixture.withKey
                  (Fixture.post Fixture3.oneColorBody)
                  (Fixture.objectValue Fixture3.oneColorBody)
                  (JStr "https://one.example") (JStr "gradient") gradient "one.example"
                  (Banner.pageContent Fixture2.oneColorPage "one.example")
                  [] [Fetched (JStr "https://one.example")]) as H.
    discharge H. resolved H.
  - pose proof (C2_colors_resolution Fixture3.runtime Fixture.withKey
                  (Fixture.post Fixture3.threeColorBody)
                  (Fixture.objectValue Fixture3.threeColorBody)
                  (JStr "https://three.example") (JStr "minimal") minimal "three.example"
                  (Banner.pageContent Fixture3.threeColorPage "three.example")
                  [] [Fetched (JStr "https://three.example")]) as H.
    discharge H. resolved H.
Defined.

(** A successful request whose [colors] is not a list of two entries: the
    template [fancy] is truthy, so it passes the check of line 189, it is
    not a key of the palette table, and the page has no color; the answer is
    200 and its [colors] is [undefined]. *)
Lemma C2_counterexample :
  WebpageContent.extractedColors (Banner.pageContent Fixture.examplePage "example.com")
  = []
  /\ Banner.handler Fixture.runtime Fixture.withKey
       (Fixture.post [("url", "https://example.com"); ("template", "fancy")]) []
     = (Return
          (Banner.respond 200
             (ResultBody
                {| AnalysisResult.title := "Example";
                   AnalysisResult.description := "Hello world and more.";
                   AnalysisResult.colors := ColorsUndefined;
                   AnalysisResult.keywords := [];
                   AnalysisResult.svgContent :=
                     "<svg viewBox='0 0 1200 630'><text>Hi</text></SVG>" |})),
        [Fetched (JStr "https://example.com");
         Generated (Banner.pageContent Fixture.examplePage "example.com")
           (JStr "fancy")]).
Proof. split; vm_compute; reflexivity. Qed.

Lemma C4_artifact_validation_witness :
  (Svg.svgMatch "I cannot draw that." = None
   /\ Banner.handler Fixture.runtime Fixture.withKey
        (Fixture.post [("url", "https://nosvg.example"); ("template", "minimal")]) []
      = (Return
           (Banner.respond 500
              (ErrorBody "Internal server error"
                 (Some "Failed to generate banner with AI"))),
         [Fetched (JStr "https://nosvg.example");
          Generated (Banner.pageContent Fixture.examplePage "nosvg.example")
            (JStr "minimal");
          ConsoleError "Error generating banner with AI:"
            (JsError "No valid SVG found in AI response");
          ConsoleError "Function error:" (JsError "Failed to generate banner with AI")]))
  /\ (Svg.svgMatch Fixture.fencedSvg
      = Some "<svg viewBox='0 0 1200 630'><text>Hi</text></SVG>"
      /\ Svg.spanOf Fixture.fencedSvg
           "<svg viewBox='0 0 1200 630'><text>Hi</text></SVG>").
Proof.
  split.
  - split; [reflexivity|].
    pose proof (C4_artifact_validation Fixture.runtime Fixture.withKey
                (Fixture.post [("url", "https://nosvg.example"); ("template", "minimal")])
                (Fixture.objectValue
                   [("url", "https://nosvg.example"); ("template", "minimal")])
                (JStr "https://nosvg.example") (JStr "minimal") "nosvg.example"
                (Banner.pageContent Fixture.examplePage "nosvg.example")
                [] [Fetched (JStr "https://nosvg.example")]
                (ColorArray [Some "#1F2937"; Some "#9CA3AF"])
                [TextBlock "I cannot draw that."] "I cannot draw that.") as H.
    discharge H.
    change (Svg.svgMatch "I cannot draw that.") with (@None string) in H.
    exact (proj2 (proj2 H)).
  - split; [reflexivity|].
    pose proof (C4_artifact_validation Fixture.runtime Fixture.withKey
                (Fixture.post [("url", "https://example.com"); ("template", "bold")])
                (Fixture.objectValue
                   [("url", "https://example.com"); ("template", "bold")])
                (JStr "https://example.com") (JStr "bold") "example.com"
                (Banner.pageContent Fixture.examplePage "example.com")
                [] [Fetched (JStr "https://example.com")]
                (ColorArray [Some "#EF4444"; Some "#F59E0B"])
                [TextBlock Fixture.fencedSvg] Fixture.fencedSvg) as H.
    discharge H.
    change (Svg.svgMatch Fixture.fencedSvg)
      with (Some "<svg viewBox='0 0 1200 630'><text>Hi</text></SVG>") in H.
    exact (proj1 H).
Defined.

(* ================================================================== *)
(** * Further properties *)
(* ================================================================== *)

(** ** What every run of the handler looks like *)

Section HandlerRuns.

Variable rt : Runtime.

Ltac run :=
  unfold Eff.tryCatch, Eff.bind, Eff.await, Eff.throw, Eff.ret, Eff.emit.

(** The extraction calls the fetcher once, first, and whatever it adds to
    the log afterwards is console output. *)
Lemma extract_log u log :
  exists rest,
    snd (Banner.extractWebpageContent rt u log) = (log ++ Fetched u :: rest)%list
    /\ networkCalls rest = [].
Proof.
  unfold Banner.extractWebpageContent. run.
  destruct (fetch rt u) as [e|response];
    [exists [ConsoleError "Error extracting webpage content:" e];
     cbn [snd]; rewrite <- app_assoc; split; reflexivity|].
  destruct (ok response); cbn [negb];
    [|eexists [ConsoleError "Error extracting webpage content:" _];
      cbn [snd]; rewrite <- app_assoc; split; reflexivity].
  destruct (responseText response) as [e|html];
    [exists [ConsoleError "Error extracting webpage content:" e];
     cbn [snd]; rewrite <- app_assoc; split; reflexivity|].
  destruct (cheerio_load rt html) as [e|doc];
    [exists [ConsoleError "Error extracting webpage content:" e];
     cbn [snd]; rewrite <- app_assoc; split; reflexivity|].
  destruct (URL_hostname rt u) as [h|];
    [exists []; split; reflexivity|].
  eexists [ConsoleError "Error extracting webpage content:" _];
    cbn [snd]; rewrite <- app_assoc; split; reflexivity.
Qed.

(** The generation either stops before its [try], leaving the log as it
    was, or calls the service once, first, and whatever it adds to the log
    afterwards is console output. *)
Lemma generate_log content t log :
  snd (Banner.generateBannerWithAI rt content t log) = log
  \/ exists rest,
      snd (Banner.generateBannerWithAI rt content t log)
      = (log ++ Generated content t :: rest)%list
      /\ networkCalls rest = [].
Proof.
  unfold Banner.generateBannerWithAI.
  destruct (Value.toString (Number_toString rt) t) as [key|];
    [right | left; reflexivity].
  run.
  destruct (messages_create rt content t) as [e|blocks];
    [exists [ConsoleError "Error generating banner with AI:" e];
     cbn [snd]; rewrite <- app_assoc; split; reflexivity|].
  destruct (Banner.firstBlockText blocks) as [raw|];
    [|eexists [ConsoleError "Error generating banner with AI:" _];
      cbn [snd]; rewrite <- app_assoc; split; reflexivity].
  destruct (Svg.svgMatch raw);
    [exists []; split; reflexivity|].
  eexists [ConsoleError "Error generating banner with AI:" _];
    cbn [snd]; rewrite <- app_assoc; split; reflexivity.
Qed.

End HandlerRuns.

Section HandlerOutcomes.

Variable rt : Runtime.

Lemma failed_run error log :
  Banner.failed error log
  = (Return (Banner.respond 500
               (ErrorBody "Internal server error" (Some (Banner.errorMessage error)))),
     (log ++ [ConsoleError "Function error:" error])%list).
Proof. reflexivity. Qed.

Lemma quiet_run status body log :
  Run.answer status body ->
  Run.runsTo (Return (Banner.respond status body), log) log.
Proof.
  intros H. exists status, body, []. rewrite app_nil_r.
  split; [reflexivity|]. split; [exact H | left; reflexivity].
Qed.

Lemma answer_400_fields :
  Run.answer 400 (ErrorBody "URL and template are required" None).
Proof. right. left. split; [reflexivity | left; reflexivity]. Qed.

Lemma answer_400_url : Run.answer 400 (ErrorBody "Invalid URL provided" None).
Proof. right. left. split; [reflexivity | right; reflexivity]. Qed.

Lemma answer_500 message :
  Run.answer 500 (ErrorBody "Internal server error" (Some message)).
Proof. right. right. right. split; [reflexivity | now exists message]. Qed.

Lemma answer_200 result : Run.answer 200 (ResultBody result).
Proof. left. split; [reflexivity | right; now exists result]. Qed.

Lemma validated_run parsed log :
  Run.runsTo (Eff.tryCatch (Banner.validated rt parsed) Banner.failed log) log.
Proof.
  unfold Banner.validated.
  destruct (Value.get parsed "url") as [u|];
    [|destruct (Value.get parsed "template"); apply quiet_run, answer_400_fields].
  destruct (Value.get parsed "template") as [t|];
    [|apply quiet_run, answer_400_fields].
  destruct (negb (Value.truthy u) || negb (Value.truthy t));
    [apply quiet_run, answer_400_fields|].
  destruct (URL_hostname rt u); [|apply quiet_run, answer_400_url].
  unfold Eff.tryCatch. unfold Eff.bind at 1.
  destruct (extract_log rt u log) as (r1 & H1 & N1).
  destruct (Banner.extractWebpageContent rt u log) as [[content|e] l1];
    cbn [snd] in H1; subst l1.
  2:{ rewrite failed_run.
      eexists 500, _, (Fetched u :: r1 ++ [ConsoleError "Function error:" e])%list.
      split; [now rewrite <- app_assoc|]. split; [apply answer_500|].
      right. left. exists u. unfold networkCalls in *. cbn.
      now rewrite filter_app, N1. }
  unfold Eff.bind at 1.
  pose proof (resolveColors_log rt t (WebpageContent.extractedColors content)
                (log ++ Fetched u :: r1)%list) as HL.
  destruct (Banner.resolveColors rt t (WebpageContent.extractedColors content)
              (log ++ Fetched u :: r1)%list) as [[colors|e] l2];
    cbn [snd] in HL; subst l2.
  2:{ rewrite failed_run.
      eexists 500, _, (Fetched u :: r1 ++ [ConsoleError "Function error:" e])%list.
      split; [now rewrite <- app_assoc|]. split; [apply answer_500|].
      right. left. exists u. unfold networkCalls in *. cbn.
      now rewrite filter_app, N1. }
  unfold Eff.bind at 1.
  destruct (generate_log rt content t (log ++ Fetched u :: r1)%list)
    as [H2 | (r2 & H2 & N2)];
    destruct (Banner.generateBannerWithAI rt content t (log ++ Fetched u :: r1)%list)
      as [[svg|e] l3]; cbn [snd] in H2; subst l3.
  - unfold Eff.ret.
    eexists 200, _, (Fetched u :: r1)%list.
    split; [reflexivity|]. split; [apply answer_200|].
    right. left. exists u. unfold networkCalls in *. cbn. now rewrite N1.
  - rewrite failed_run.
    eexists 500, _, (Fetched u :: r1 ++ [ConsoleError "Function error:" e])%list.
    split; [now rewrite <- app_assoc|]. split; [apply answer_500|].
    right. left. exists u. unfold networkCalls in *. cbn.
    now rewrite filter_app, N1.
  - unfold Eff.ret.
    eexists 200, _, (Fetched u :: r1 ++ Generated content t :: r2)%list.
    split; [now rewrite <- app_assoc|]. split; [apply answer_200|].
    right. right. exists u, content, t. unfold networkCalls in *. cbn.
    rewrite filter_app, N1. cbn. now rewrite N2.
  - rewrite failed_run.
    eexists 500, _, (Fetched u :: r1 ++ Generated content t :: r2
                       ++ [ConsoleError "Function error:" e])%list.
    split; [now rewrite <- !app_assoc|]. split; [apply answer_500|].
    right. right. exists u, content, t. unfold networkCalls in *. cbn.
    rewrite filter_app, N1. cbn. now rewrite filter_app, N2.
Qed.

Lemma handler_run env event log :
  Run.runsTo (Banner.handler rt env event log) log.
Proof.
  unfold Banner.handler.
  destruct (String.eqb (HandlerEvent.httpMethod event) "OPTIONS");
    [apply quiet_run; left; split; [reflexivity | left; reflexivity]|].
  destruct (String.eqb (HandlerEvent.httpMethod event) "POST"); cbn [negb];
    [|apply quiet_run; right; right; left; split; reflexivity].
  assert (Hfail : forall e, Run.runsTo (Banner.failed e log) log).
  { intros e. rewrite failed_run.
    eexists 500, _, [ConsoleError "Function error:" e].
    split; [reflexivity|]. split; [apply answer_500 | left; reflexivity]. }
  unfold Eff.tryCatch at 1. unfold Eff.bind at 1.
  destruct (Banner.credentialMissing env); [apply Hfail|].
  unfold Eff.ret at 1. unfold Eff.bind at 1.
  destruct (JSON_parse rt (Banner.bodyText event)) as [e|parsed]; [apply Hfail|].
  unfold Eff.await, Eff.ret at 1. unfold Eff.bind at 1.
  destruct parsed; try apply validated_run. apply Hfail.
Qed.

(** X1.  Whatever the environment, the request and the collaborators do,
    the handler throws nothing: it returns a response with the CORS
    headers, which is one of: 200 with the empty body or a result, 400 with
    one of the two input errors, 405 "Method not allowed", or 500
    "Internal server error" with a message. *)
Theorem handler_always_answers env event log :
  exists status body log',
    Banner.handler rt env event log = (Return (Banner.respond status body), log')
    /\ Response.headers (Banner.respond status body) = Banner.headers
    /\ Run.answer status body.
Proof.
  destruct (handler_run env event log) as (status & body & delta & H & Ha & _).
  exists status, body, (log ++ delta)%list. repeat split; assumption.
Qed.

(** X2.  A run of the handler only adds to the log, and among what it adds
    there is at most one fetch and at most one generation call, the
    generation never without the fetch before it. *)
Theorem handler_network_discipline env event log :
  exists delta,
    snd (Banner.handler rt env event log) = (log ++ delta)%list
    /\ (networkCalls delta = []
        \/ (exists u, networkCalls delta = [Fetched u])
        \/ (exists u content t,
               networkCalls delta = [Fetched u; Generated content t])).
Proof.
  destruct (handler_run env event log) as (status & body & delta & H & _ & Hn).
  exists delta. rewrite H. split; [reflexivity | exact Hn].
Qed.

(** X3.  The method is looked at before anything else: a preflight
    (OPTIONS) is answered 200 with an empty body, any method other than
    OPTIONS and POST is answered 405; in both cases nothing is read from the
    environment or the body and the log is left as it was. *)
Theorem method_gates env event log :
  (HandlerEvent.httpMethod event = "OPTIONS" ->
   Banner.handler rt env event log = (Return (Banner.respond 200 EmptyBody), log))
  /\ (HandlerEvent.httpMethod event <> "OPTIONS" ->
      HandlerEvent.httpMethod event <> "POST" ->
      Banner.handler rt env event log
      = (Return (Banner.respond 405 (ErrorBody "Method not allowed" None)), log)).
Proof.
  unfold Banner.handler. split.
  - intros ->. reflexivity.
  - intros Ho Hp.
    apply String.eqb_neq in Ho, Hp. now rewrite Ho, Hp.
Qed.

(** X4.  An ANTHROPIC_API_KEY that is set to the empty string counts as
    missing: a POST is answered 500 with the message naming the variable,
    before the body is parsed and without any network call. *)
Theorem empty_credential_is_missing env event log :
  HandlerEvent.httpMethod event = "POST" ->
  ANTHROPIC_API_KEY env = Some EmptyString ->
  Banner.handler rt env event log
  = (Return
       (Banner.respond 500
          (ErrorBody "Internal server error"
             (Some "ANTHROPIC_API_KEY environment variable is not set"))),
     (log ++ [ConsoleError "Function error:"
                (JsError "ANTHROPIC_API_KEY environment variable is not set")])%list).
Proof.
  intros Hpost Hkey. rewrite (handler_post _ _ _ Hpost).
  unfold Banner.credentialMissing. rewrite Hkey. reflexivity.
Qed.

End HandlerOutcomes.

Lemma method_gates_witness :
  Banner.handler Fixture.runtime Fixture.withoutKey
    {| HandlerEvent.httpMethod := "OPTIONS"; HandlerEvent.body := None |} []
  = (Return (Banner.respond 200 EmptyBody), [])
  /\ Banner.handler Fixture.runtime Fixture.withKey
       {| HandlerEvent.httpMethod := "GET"; HandlerEvent.body := Some "{}" |} []
     = (Return (Banner.respond 405 (ErrorBody "Method not allowed" None)), []).
Proof.
  split.
  - apply (proj1 (method_gates Fixture.runtime Fixture.withoutKey
                    {| HandlerEvent.httpMethod := "OPTIONS";
                       HandlerEvent.body := None |} [])).
    reflexivity.
  - apply (proj2 (method_gates Fixture.runtime Fixture.withKey
                    {| HandlerEvent.httpMethod := "GET";
                       HandlerEvent.body := Some "{}" |} []));
      discriminate.
Defined.

Lemma empty_credential_is_missing_witness :
  Banner.handler Fixture.runtime {| ANTHROPIC_API_KEY := Some EmptyString |}
    (Fixture.post [("url", "https://example.com"); ("template", "bold")]) []
  = (Return
       (Banner.respond 500
          (ErrorBody "Internal server error"
             (Some "ANTHROPIC_API_KEY environment variable is not set"))),
     [ConsoleError "Function error:"
        (JsError "ANTHROPIC_API_KEY environment variable is not set")]).
Proof.
  apply (empty_credential_is_missing Fixture.runtime
           {| ANTHROPIC_API_KEY := Some EmptyString |}
           (Fixture.post [("url", "https://example.com"); ("template", "bold")]) []);
    reflexivity.
Defined.

(** ** What the extraction reads off a document *)

Section ContentFacts.

Lemma substring0_length (n : nat) (s : string) :
  String.length (substring 0 n s) <= n.
Proof.
  revert s. induction n as [|n IH]; intros [|c s]; simpl; try lia.
  specialize (IH s). lia.
Qed.

Lemma substring0_nonempty (n : nat) (s : string) :
  s <> EmptyString -> 0 < n -> substring 0 n s <> EmptyString.
Proof.
  intros Hs Hn. destruct n; [lia|]. destruct s; [congruence|]. discriminate.
Qed.

Lemma substring0_idempotent (n : nat) (s : string) :
  substring 0 n (substring 0 n s) = substring 0 n s.
Proof.
  revert s. induction n as [|n IH]; intros [|c s]; simpl; try reflexivity.
  now rewrite IH.
Qed.

Lemma firstTruthy_nonempty operands last :
  last <> EmptyString -> Banner.firstTruthy operands last <> EmptyString.
Proof.
  intros H. induction operands as [|[[|c s]|] rest IH]; simpl; try assumption.
  discriminate.
Qed.

(** Every operand of the chain that can win is a candidate. *)
Lemma firstTruthy_In operands last :
  Banner.firstTruthy operands last = last
  \/ In (Some (Banner.firstTruthy operands last)) operands.
Proof.
  induction operands as [|[[|c s]|] rest IH]; simpl; try tauto.
Qed.

Lemma trimStart_clean (s : string) :
  match Js.trimStart s with
  | EmptyString => True
  | String c _ => Js.isWhiteSpace c = false
  end.
Proof.
  induction s as [|c s IH]; simpl; [exact I|].
  destruct (Js.isWhiteSpace c) eqn:Hc; [exact IH | exact Hc].
Qed.

Lemma trimStart_fixed (s : string) :
  match s with
  | EmptyString => True
  | String c _ => Js.isWhiteSpace c = false
  end ->
  Js.trimStart s = s.
Proof. destruct s as [|c s]; simpl; [reflexivity|]. now intros ->. Qed.

Lemma trimEnd_head (s : string) :
  match s with
  | EmptyString => True
  | String c _ => Js.isWhiteSpace c = false
  end ->
  match Js.trimEnd s with
  | EmptyString => True
  | String c _ => Js.isWhiteSpace c = false
  end.
Proof.
  destruct s as [|c s]; simpl; [trivial|]. intros Hc.
  destruct (Js.trimEnd s); [rewrite Hc|]; exact Hc.
Qed.

Lemma trimEnd_idempotent (s : string) :
  Js.trimEnd (Js.trimEnd s) = Js.trimEnd s.
Proof.
  induction s as [|c s IH]; simpl; [reflexivity|].
  destruct (Js.trimEnd s) as [|d r] eqn:Hr.
  - destruct (Js.isWhiteSpace c) eqn:Hc; simpl; [reflexivity|]. now rewrite Hc.
  - cbn [Js.trimEnd]. cbn [Js.trimEnd] in IH. rewrite IH. reflexivity.
Qed.

Lemma trim_idempotent (s : string) : Js.trim (Js.trim s) = Js.trim s.
Proof.
  unfold Js.trim.
  rewrite (trimStart_fixed (Js.trimEnd (Js.trimStart s))).
  - apply trimEnd_idempotent.
  - apply trimEnd_head, trimStart_clean.
Qed.

Lemma split_length (sep : ascii) (s : string) :
  List.length (Js.split sep s)
  = S (count_occ ascii_dec (list_ascii_of_string s) sep).
Proof.
  induction s as [|c s IH]; simpl; [reflexivity|].
  destruct (Ascii.eqb c sep) eqn:Hc.
  - apply Ascii.eqb_eq in Hc. subst c. simpl.
    destruct (ascii_dec sep sep); [|congruence]. now rewrite IH.
  - apply Ascii.eqb_neq in Hc.
    destruct (ascii_dec c sep); [congruence|].
    destruct (Js.split sep s); simpl in *; [discriminate | exact IH].
Qed.

Lemma replaceFirst_prefix (pat rep s : string) :
  prefix pat s = true ->
  Js.replaceFirst pat rep s = rep ++ Js.drop (String.length pat) s.
Proof.
  intros H. destruct s as [|c s]; cbn [Js.replaceFirst]; rewrite H; [|reflexivity].
  destruct pat; [|discriminate]. simpl. symmetry. apply append_empty_r.
Qed.

Lemma replaceFirst_absent (pat rep s : string) :
  Js.stringIncludes pat s = false -> Js.replaceFirst pat rep s = s.
Proof.
  induction s as [|c s IH]; cbn [Js.stringIncludes Js.replaceFirst]; intros H;
    apply orb_false_iff in H; destruct H as [Hp Hs]; rewrite Hp; [reflexivity|].
  now rewrite IH.
Qed.

Lemma append_assoc (a b c : string) : (a ++ b) ++ c = a ++ b ++ c.
Proof. induction a; simpl; congruence. Qed.

Lemma drop_app_length (a b : string) : Js.drop (String.length a) (a ++ b) = b.
Proof. induction a; simpl; [now destruct b | assumption]. Qed.

Lemma prefix_app (a b : string) : prefix a (a ++ b) = true.
Proof.
  induction a as [|c a IH]; simpl; [now destruct b|].
  destruct (ascii_dec c c); [exact IH | congruence].
Qed.

Lemma replaceFirst_first (pat rep a b : string) :
  (forall a1 a2, a = a1 ++ a2 -> a2 <> EmptyString ->
                 prefix pat (a2 ++ pat ++ b) = false) ->
  Js.replaceFirst pat rep (a ++ pat ++ b) = a ++ rep ++ b.
Proof.
  induction a as [|c a IH]; intros Hfirst.
  - cbn [append]. rewrite replaceFirst_prefix by apply prefix_app.
    now rewrite drop_app_length.
  - cbn [append Js.replaceFirst].
    change (String c (a ++ pat ++ b)) with (String c a ++ pat ++ b).
    rewrite (Hfirst EmptyString (String c a) eq_refl) by discriminate.
    rewrite IH; [reflexivity|].
    intros a1 a2 -> Hne. apply (Hfirst (String c a1) a2 eq_refl Hne).
Qed.

End ContentFacts.

Lemma content_bounds (doc : Cheerio) (hostname : string) :
  let content := Banner.pageContent doc hostname in
  WebpageContent.title content <> EmptyString
  /\ String.length (WebpageContent.title content) <= 100
  /\ WebpageContent.description content <> EmptyString
  /\ String.length (WebpageContent.description content) <= 200
  /\ List.length (WebpageContent.keywords content) <= 10
  /\ String.length (WebpageContent.mainContent content) <= 500
  /\ List.length (WebpageContent.extractedColors content) <= 3.
Proof.
  cbv zeta. unfold Banner.pageContent.
  cbn [WebpageContent.title WebpageContent.description WebpageContent.keywords
       WebpageContent.mainContent WebpageContent.extractedColors].
  repeat split.
  - apply substring0_nonempty; [apply firstTruthy_nonempty; discriminate | lia].
  - apply substring0_length.
  - apply substring0_nonempty; [apply firstTruthy_nonempty; discriminate | lia].
  - apply substring0_length.
  - unfold Js.slice0. apply firstn_le_length.
  - cbn [Banner.firstTruthy].
    destruct (Js.truthy _); apply substring0_length.
  - apply extractedColors_length.
Qed.

(** X5.  Whatever the document, the extracted title and description are not
    empty and have at most 100 and 200 code units, there are at most 10
    keywords, the content snippet has at most 500 code units and there are
    at most 3 colors. *)
Theorem pageContent_bounds (doc : Cheerio) (hostname : string) :
  let content := Banner.pageContent doc hostname in
  WebpageContent.title content <> EmptyString
  /\ String.length (WebpageContent.title content) <= 100
  /\ WebpageContent.description content <> EmptyString
  /\ String.length (WebpageContent.description content) <= 200
  /\ List.length (WebpageContent.keywords content) <= 10
  /\ String.length (WebpageContent.mainContent content) <= 500
  /\ List.length (WebpageContent.extractedColors content) <= 3.
Proof. exact (content_bounds doc hostname). Qed.

(** X6.  The description is the first non-empty of: the content of the
    description meta tag, the content of og:description, the trimmed text of
    the first paragraph cut to 200 code units, and the sentinel; a meta
    content is taken as written and cut to 200 code units. *)
Theorem description_chain (doc : Cheerio) (hostname : string) :
  let extracted := WebpageContent.description (Banner.pageContent doc hostname) in
  let meta := attrContent doc (SelMetaName "description") in
  let og := attrContent doc (SelMetaProperty "og:description") in
  let paragraph := Js.substring0 200 (Js.trim (firstText doc SelP)) in
  (forall content, meta = Some content -> content <> EmptyString ->
   extracted = Js.substring0 200 content)
  /\ (meta = None \/ meta = Some EmptyString ->
      forall content, og = Some content -> content <> EmptyString ->
      extracted = Js.substring0 200 content)
  /\ (meta = None \/ meta = Some EmptyString ->
      og = None \/ og = Some EmptyString ->
      paragraph <> EmptyString -> extracted = paragraph)
  /\ (meta = None \/ meta = Some EmptyString ->
      og = None \/ og = Some EmptyString ->
      paragraph = EmptyString -> extracted = "No description available").
Proof.
  cbv zeta. unfold Banner.pageContent. cbn [WebpageContent.description].
  repeat split.
  - intros content -> Hne. now rewrite firstTruthy_head_truthy.
  - intros Hm content Ho Hne.
    destruct content as [|c content]; [congruence|].
    destruct Hm as [-> | ->]; cbn [Banner.firstTruthy Js.truthy]; rewrite Ho;
      reflexivity.
  - intros Hm Ho Hne.
    destruct Hm as [-> | ->], Ho as [-> | ->]; cbn [Banner.firstTruthy Js.truthy];
      destruct (Js.substring0 200 (Js.trim (firstText doc SelP))) as [|c p] eqn:Hp;
      try congruence; cbn [Js.truthy]; rewrite <- Hp; apply substring0_idempotent.
  - intros Hm Ho Hp.
    destruct Hm as [-> | ->], Ho as [-> | ->]; cbn [Banner.firstTruthy Js.truthy];
      rewrite Hp; reflexivity.
Qed.

(** X7.  Every extracted keyword is free of surrounding white space; a
    missing or empty keywords meta tag gives no keyword; otherwise the
    keywords are the comma-separated pieces, trimmed, in order and with
    repetitions, the first ten of them: one more than there are commas,
    capped at ten. *)
Theorem keywords_trimmed_and_capped (doc : Cheerio) (hostname : string) :
  let extracted := WebpageContent.keywords (Banner.pageContent doc hostname) in
  let meta := attrContent doc (SelMetaName "keywords") in
  (forall keyword, In keyword extracted -> Js.trim keyword = keyword)
  /\ (meta = None \/ meta = Some EmptyString -> extracted = [])
  /\ (forall content, meta = Some content -> content <> EmptyString ->
      extracted = firstn 10 (map Js.trim (Js.split "," content))
      /\ List.length extracted
         = Nat.min 10 (S (count_occ ascii_dec (list_ascii_of_string content) ","%char))).
Proof.
  cbv zeta. unfold Banner.pageContent. cbn [WebpageContent.keywords].
  repeat split.
  - intros keyword Hin. unfold Js.slice0 in Hin. apply firstn_In in Hin.
    destruct (Js.truthy _); [|contradiction].
    apply in_map_iff in Hin. destruct Hin as (raw & <- & _). apply trim_idempotent.
  - intros [-> | ->]; reflexivity.
  - match goal with H : attrContent _ _ = Some _ |- _ => rewrite H end.
    destruct content; [congruence|]. reflexivity.
  - match goal with H : attrContent _ _ = Some _ |- _ => rewrite H end.
    destruct content as [|c content]; [congruence|].
    cbn [Banner.firstTruthy Js.truthy]. unfold Js.slice0.
    rewrite length_firstn, length_map, split_length. reflexivity.
Qed.

(** X8.  The domain is the hostname without its first [www.], wherever that
    occurrence is (not only in front), and the hostname itself when it has
    none. *)
Theorem domain_removes_first_www (doc : Cheerio) (hostname : string) :
  let extracted := WebpageContent.domain (Banner.pageContent doc hostname) in
  (Js.stringIncludes "www." hostname = false -> extracted = hostname)
  /\ (forall before after,
         hostname = before ++ "www." ++ after ->
         (forall b1 b2, before = b1 ++ b2 -> b2 <> EmptyString ->
                        prefix "www." (b2 ++ "www." ++ after) = false) ->
         extracted = before ++ after).
Proof.
  cbv zeta. unfold Banner.pageContent. cbn [WebpageContent.domain]. split.
  - apply replaceFirst_absent.
  - intros before after -> Hfirst.
    now rewrite (replaceFirst_first "www." "" before after Hfirst).
Qed.

(** ** The color tokens *)

Section ScanFacts.

Lemma prefix_split (a s : string) :
  prefix a s = true -> exists rest, s = a ++ rest.
Proof.
  revert s. induction a as [|c a IH]; intros s H.
  - now exists s.
  - destruct s as [|d s]; [discriminate|]. simpl in H.
    destruct (ascii_dec c d) as [<-|]; [|discriminate].
    destruct (IH s H) as (rest & ->). now exists rest.
Qed.

Lemma hexDigits_spec (k : nat) (s digits : string) :
  Colors.hexDigits k s = Some digits ->
  String.length digits = k
  /\ Literal.allChars Colors.isHexDigit digits = true
  /\ exists rest, s = digits ++ rest.
Proof.
  revert s digits. induction k as [|k IH]; intros s digits; simpl.
  - intros [= <-]. repeat split. now exists s.
  - destruct s as [|c s]; [discriminate|].
    destruct (Colors.isHexDigit c) eqn:Hc; [|discriminate].
    destruct (Colors.hexDigits k s) as [d|] eqn:Hd; [|discriminate].
    intros [= <-]. destruct (IH s d Hd) as (Hlen & Hall & rest & ->).
    repeat split.
    + simpl. now rewrite Hlen.
    + unfold Literal.allChars in *. simpl. now rewrite Hc, Hall.
    + now exists rest.
Qed.

Lemma throughParen_spec (s r : string) :
  Colors.throughParen s = Some r ->
  exists inner rest,
    r = inner ++ ")" /\ s = r ++ rest
    /\ Literal.allChars (fun c => negb (Ascii.eqb c ")")) inner = true.
Proof.
  revert r. induction s as [|c s IH]; intros r; simpl; [discriminate|].
  destruct (Ascii.eqb c ")") eqn:Hc.
  - intros [= <-]. apply Ascii.eqb_eq in Hc. subst c.
    exists EmptyString, s. repeat split.
  - destruct (Colors.throughParen s) as [r'|] eqn:Hr; [|discriminate].
    intros [= <-]. destruct (IH r' eq_refl) as (inner & rest & -> & -> & Hall).
    exists (String c inner), rest. repeat split.
    unfold Literal.allChars in *. simpl. now rewrite Hc, Hall.
Qed.

Lemma hexColor_spec (k : nat) (s token : string) :
  k = 3 \/ k = 6 ->
  Colors.hexColor k s = Some token ->
  Literal.isHex token /\ exists rest, s = token ++ rest.
Proof.
  intros Hk. unfold Colors.hexColor.
  destruct s as [|c s]; [discriminate|].
  destruct (Ascii.eqb c "#") eqn:Hc.
  - apply Ascii.eqb_eq in Hc. subst c.
    destruct (Colors.hexDigits k s) as [d|] eqn:Hd; [|discriminate].
    intros [= <-]. destruct (hexDigits_spec _ _ _ Hd) as (Hlen & Hall & rest & ->).
    split; [|now exists rest].
    exists d. repeat split; [lia | assumption].
  - intros H. exfalso. revert H Hc.
    destruct c as [[] [] [] [] [] [] [] []]; simpl; discriminate.
Qed.

Lemma funcColor_spec (name s token : string) :
  name = "rgb" \/ name = "rgba" ->
  Colors.funcColor name s = Some token ->
  Literal.isFunctional token /\ exists rest, s = token ++ rest.
Proof.
  intros Hname. unfold Colors.funcColor.
  destruct (prefix (name ++ "(") s) eqn:Hp; [|discriminate].
  destruct (prefix_split _ _ Hp) as (tail & ->).
  rewrite drop_app_length.
  destruct (Colors.throughParen tail) as [r|] eqn:Hr; [|discriminate].
  destruct (throughParen_spec _ _ Hr) as (inner & rest & -> & -> & Hall).
  destruct (2 <=? String.length (inner ++ ")")) eqn:Hlen; [|discriminate].
  intros [= <-]. split.
  - exists name, inner. repeat split; try assumption.
    + now rewrite append_assoc.
    + intros ->. discriminate.
  - exists rest. now rewrite !append_assoc.
Qed.

Lemma colorAt_spec (s token : string) :
  Colors.colorAt s = Some token ->
  (Literal.isHex token \/ Literal.isFunctional token)
  /\ exists rest, s = token ++ rest.
Proof.
  unfold Colors.colorAt, Colors.firstSome.
  destruct (Colors.hexColor 6 s) eqn:H6.
  { intros [= <-]. destruct (hexColor_spec 6 _ _ (or_intror eq_refl) H6). tauto. }
  destruct (Colors.hexColor 3 s) eqn:H3.
  { intros [= <-]. destruct (hexColor_spec 3 _ _ (or_introl eq_refl) H3). tauto. }
  destruct (Colors.funcColor "rgb" s) eqn:Hf.
  { intros [= <-]. destruct (funcColor_spec _ _ _ (or_introl eq_refl) Hf). tauto. }
  intros Hg. destruct (funcColor_spec _ _ _ (or_intror eq_refl) Hg). tauto.
Qed.

Lemma scan_spec (s token : string) (skip : nat) :
  In token (Colors.scan skip s) ->
  (Literal.isHex token \/ Literal.isFunctional token)
  /\ exists before after, s = before ++ token ++ after.
Proof.
  revert skip. induction s as [|c s IH]; intros skip; [contradiction|].
  assert (Hlater : forall k, In token (Colors.scan k s) ->
                    (Literal.isHex token \/ Literal.isFunctional token)
                    /\ exists before after, String c s = before ++ token ++ after).
  { intros k Hin. destruct (IH k Hin) as (Hshape & before & after & ->).
    split; [assumption|]. now exists (String c before), after. }
  cbn [Colors.scan]. destruct skip as [|k]; [|apply Hlater].
  destruct (Colors.colorAt (String c s)) as [tok|] eqn:Hat; [|apply Hlater].
  intros [<- | Hin]; [|exact (Hlater _ Hin)].
  destruct (colorAt_spec _ _ Hat) as (Hshape & rest & Hs).
  split; [assumption|]. now exists EmptyString, rest.
Qed.

End ScanFacts.

(** X9.  Every extracted color is a literal that occurs in the style text,
    and it is either [#] with exactly three or six hex digits, or [rgb(...)]
    or [rgba(...)] around a non-empty run that holds no closing
    parenthesis. *)
Theorem extracted_colors_are_literals (styleContent color : string) :
  In color (Colors.extractedColors styleContent) ->
  (Literal.isHex color \/ Literal.isFunctional color)
  /\ exists before after, styleContent = before ++ color ++ after.
Proof.
  intros H. apply extractedColors_In in H. destruct H as [H _].
  exact (scan_spec _ _ _ H).
Qed.

(** ** Fragments *)

Section FragmentFacts.

Lemma substring0_app_length (a b : string) :
  substring 0 (String.length a) (a ++ b) = a.
Proof. induction a; simpl; [now destruct b | congruence]. Qed.

Lemma eqCI_angle (c : ascii) : Js.eqCI "<" c = true -> c = "<"%char.
Proof.
  destruct c as [[] [] [] [] [] [] [] []]; vm_compute; intros H;
    try reflexivity; discriminate.
Qed.

Lemma eqCI_trans (a b c : ascii) :
  Js.eqCI a b = true -> Js.eqCI b c = true -> Js.eqCI a c = true.
Proof.
  unfold Js.eqCI. intros H1 H2.
  apply Ascii.eqb_eq in H1, H2. apply Ascii.eqb_eq. congruence.
Qed.

Lemma prefixCI_app (p a b : string) :
  Js.prefixCI p a = true -> Js.prefixCI p (a ++ b) = true.
Proof.
  revert a. induction p as [|c p IH]; intros a; [reflexivity|].
  destruct a as [|d a]; [discriminate|]. simpl.
  intros H. apply andb_true_iff in H. destruct H as [-> H]. now apply IH.
Qed.

Lemma prefixCI_head (p s : string) :
  Js.prefixCI (String "<" p) s = true ->
  exists rest, s = String "<" rest.
Proof.
  destruct s as [|c s]; [discriminate|]. simpl. intros H.
  apply andb_true_iff in H. destruct H as [H _].
  apply eqCI_angle in H. subst c. now exists s.
Qed.

Lemma noAngle_cons (c : ascii) (s : string) :
  Artifact.noAngle (String c s) = true ->
  c <> "<"%char /\ Artifact.noAngle s = true.
Proof.
  unfold Artifact.noAngle, Literal.allChars. simpl. intros H.
  apply andb_true_iff in H. destruct H as [Hc Hs]. split; [|assumption].
  intros ->. discriminate.
Qed.

Lemma noAngle_not_prefix (p s : string) :
  Artifact.noAngle s = true -> Js.prefixCI (String "<" p) s = false.
Proof.
  intros H. destruct (Js.prefixCI (String "<" p) s) eqn:Hp; [|reflexivity].
  destruct (prefixCI_head _ _ Hp) as (rest & ->).
  apply noAngle_cons in H. destruct H as [H _]. congruence.
Qed.

Lemma noAngle_greedyClose (s : string) :
  Artifact.noAngle s = true -> Svg.greedyClose s = None.
Proof.
  induction s as [|c s IH]; intros H; [reflexivity|].
  cbn [Svg.greedyClose]. rewrite (noAngle_not_prefix _ _ H).
  apply noAngle_cons in H. destruct H as [_ H]. now rewrite (IH H).
Qed.

(** The characters behind the first one of a closing tag are not [<]. *)
Lemma closing_tail (closing : string) :
  String.length closing = 6 -> Js.prefixCI "</svg>" closing = true ->
  exists c rest, closing = String c rest /\ Artifact.noAngle rest = true.
Proof.
  intros Hlen Hp.
  destruct closing as [|c1 [|c2 [|c3 [|c4 [|c5 [|c6 [|c7 r]]]]]]]; try discriminate.
  exists c1, (String c2 (String c3 (String c4 (String c5 (String c6 ""))))).
  split; [reflexivity|].
  cbn [Js.prefixCI] in Hp.
  repeat (apply andb_true_iff in Hp; let H := fresh "E" in destruct Hp as [H Hp]).
  assert (Hno : forall a c, Js.eqCI a c = true -> Js.eqCI "<" a = false ->
                            negb (Ascii.eqb c "<") = true).
  { intros a c Hac Ha. destruct (Ascii.eqb c "<") eqn:Hc; [|reflexivity].
    apply Ascii.eqb_eq in Hc. subst c.
    unfold Js.eqCI in *. rewrite Ascii.eqb_sym in Ha. congruence. }
  unfold Artifact.noAngle, Literal.allChars. cbn [list_ascii_of_string forallb].
  rewrite (Hno _ _ E0 eq_refl), (Hno _ _ E1 eq_refl), (Hno _ _ E2 eq_refl),
    (Hno _ _ E3 eq_refl), (Hno _ _ E4 eq_refl). reflexivity.
Qed.

Lemma noAngle_app (a b : string) :
  Artifact.noAngle a = true -> Artifact.noAngle b = true ->
  Artifact.noAngle (a ++ b) = true.
Proof.
  unfold Artifact.noAngle, Literal.allChars.
  induction a as [|c a IH]; simpl; [trivial|].
  intros H Hb. apply andb_true_iff in H. destruct H as [-> H]. now apply IH.
Qed.

Lemma greedyClose_closing (closing after : string) :
  String.length closing = 6 -> Js.prefixCI "</svg>" closing = true ->
  Artifact.noAngle after = true ->
  Svg.greedyClose (closing ++ after) = Some closing.
Proof.
  intros Hlen Hp Hafter.
  destruct (closing_tail _ Hlen Hp) as (c & rest & Hc & Hrest).
  pose proof (prefixCI_app _ _ after Hp) as Happ.
  pose proof (substring0_app_length closing after) as Hsub.
  rewrite Hlen in Hsub. subst closing.
  cbn [append Svg.greedyClose].
  rewrite (noAngle_greedyClose _ (noAngle_app _ _ Hrest Hafter)).
  cbn [append] in Happ, Hsub. rewrite Happ. unfold Js.substring0. now rewrite Hsub.
Qed.

Lemma greedyClose_app (body t r : string) :
  Svg.greedyClose t = Some r -> Svg.greedyClose (body ++ t) = Some (body ++ r).
Proof.
  intros H. induction body as [|c body IH]; [exact H|].
  cbn [append Svg.greedyClose]. now rewrite IH.
Qed.

Lemma svgAt_fragment (opening body closing after : string) :
  String.length opening = 4 -> Js.prefixCI "<svg" opening = true ->
  String.length closing = 6 -> Js.prefixCI "</svg>" closing = true ->
  Artifact.noAngle after = true ->
  Svg.svgAt (opening ++ body ++ closing ++ after) = Some (opening ++ body ++ closing).
Proof.
  intros Ho Hpo Hc Hpc Hafter. unfold Svg.svgAt.
  rewrite (prefixCI_app _ _ _ Hpo).
  rewrite <- Ho at 2. rewrite drop_app_length.
  rewrite (greedyClose_app body _ _ (greedyClose_closing _ _ Hc Hpc Hafter)).
  unfold Js.substring0. rewrite <- Ho at 1. rewrite substring0_app_length.
  reflexivity.
Qed.

Lemma svgMatch_skip (before s m : string) :
  Artifact.noAngle before = true ->
  Svg.svgAt s = Some m ->
  Svg.svgMatch (before ++ s) = Some m.
Proof.
  intros Hb Hs. induction before as [|c before IH].
  - cbn [append]. destruct s; cbn [Svg.svgMatch]; now rewrite Hs.
  - cbn [append Svg.svgMatch]. unfold Svg.svgAt at 1.
    assert (Hp : Js.prefixCI "<svg" (String c (before ++ s)) = false).
    { destruct (Js.prefixCI "<svg" (String c (before ++ s))) eqn:Hp; [|reflexivity].
      destruct (prefixCI_head _ _ Hp) as (rest & [= -> _]).
      apply noAngle_cons in Hb. destruct Hb as [Hb _]. congruence. }
    rewrite Hp. apply noAngle_cons in Hb. destruct Hb as [_ Hb]. now apply IH.
Qed.

Lemma prefixCI_substring (p s : string) :
  Js.prefixCI p s = true ->
  String.length (substring 0 (String.length p) s) = String.length p
  /\ Js.prefixCI p (substring 0 (String.length p) s) = true.
Proof.
  revert s. induction p as [|c p IH]; intros s H.
  - destruct s; split; reflexivity.
  - destruct s as [|d s]; [discriminate|]. simpl in H.
    apply andb_true_iff in H. destruct H as [Hc H].
    destruct (IH s H) as [Hl Hp]. simpl. rewrite Hl, Hc, Hp. split; reflexivity.
Qed.

Lemma greedyClose_shape (t r : string) :
  Svg.greedyClose t = Some r ->
  exists body closing,
    r = body ++ closing
    /\ String.length closing = 6 /\ Js.prefixCI "</svg>" closing = true.
Proof.
  revert r. induction t as [|c t IH]; intros r; [discriminate|].
  cbn [Svg.greedyClose]. destruct (Svg.greedyClose t) as [r'|].
  - intros [= <-]. destruct (IH r' eq_refl) as (body & closing & -> & Hl & Hp).
    now exists (String c body), closing.
  - destruct (Js.prefixCI "</svg>" (String c t)) eqn:Hp; [|discriminate].
    intros [= <-]. destruct (prefixCI_substring _ _ Hp) as [Hl Hq].
    now exists EmptyString, (Js.substring0 6 (String c t)).
Qed.

Lemma svgAt_shape (s m : string) :
  Svg.svgAt s = Some m -> Artifact.isFragment m.
Proof.
  unfold Svg.svgAt. destruct (Js.prefixCI "<svg" s) eqn:Hp; [|discriminate].
  destruct (Svg.greedyClose (Js.drop 4 s)) as [r|] eqn:Hr; [|discriminate].
  intros [= <-]. destruct (greedyClose_shape _ _ Hr) as (body & closing & -> & Hl & Hc).
  destruct (prefixCI_substring _ _ Hp) as [Hlo Hpo].
  now exists (Js.substring0 4 s), body, closing.
Qed.

Lemma svgMatch_shape (s m : string) :
  Svg.svgMatch s = Some m -> Artifact.isFragment m.
Proof.
  induction s as [|c s IH]; cbn [Svg.svgMatch].
  - destruct (Svg.svgAt "") eqn:H; [|discriminate].
    intros [= <-]. exact (svgAt_shape _ _ H).
  - destruct (Svg.svgAt (String c s)) eqn:H; [|exact IH].
    intros [= <-]. exact (svgAt_shape _ _ H).
Qed.

End FragmentFacts.

Lemma wrapped_match (before fragment after : string) :
  Artifact.isFragment fragment ->
  Artifact.noAngle before = true ->
  Artifact.noAngle after = true ->
  Svg.svgMatch (before ++ fragment ++ after) = Some fragment.
Proof.
  intros (opening & body & closing & -> & Ho & Hpo & Hc & Hpc) Hb Ha.
  apply svgMatch_skip; [assumption|].
  rewrite !append_assoc. now apply svgAt_fragment.
Qed.

(** X10.  A fragment (an opening tag, anything, a closing tag) that is
    wrapped in text holding no [<], such as a code fence in front and a
    commentary behind, is matched exactly: the wrapping is discarded. *)
Theorem fragment_survives_wrapping (before fragment after : string) :
  Artifact.isFragment fragment ->
  Artifact.noAngle before = true ->
  Artifact.noAngle after = true ->
  Svg.svgMatch (before ++ fragment ++ after) = Some fragment.
Proof. exact (wrapped_match before fragment after). Qed.

(** X11.  Whatever the text, what the match returns starts with an opening
    tag and ends with a closing tag (in any letter case), and matching it
    again returns it unchanged. *)
Theorem svgMatch_returns_fragment (text fragment : string) :
  Svg.svgMatch text = Some fragment ->
  Artifact.isFragment fragment /\ Svg.svgMatch fragment = Some fragment.
Proof.
  intros H. pose proof (svgMatch_shape _ _ H) as Hshape. split; [assumption|].
  pose proof (wrapped_match EmptyString fragment EmptyString
                Hshape eq_refl eq_refl) as Hw.
  cbn [append] in Hw. now rewrite append_empty_r in Hw.
Qed.

(** ** Extraction and results in the handler *)

Section PipelineFacts.

Variable rt : Runtime.

Ltac run :=
  unfold Eff.tryCatch, Eff.bind, Eff.await, Eff.throw, Eff.ret, Eff.emit.

Lemma extract_inv u log content log' :
  Banner.extractWebpageContent rt u log = (Return content, log') ->
  exists response html doc hostname,
    fetch rt u = inr response /\ ok response = true
    /\ responseText response = inr html
    /\ cheerio_load rt html = inr doc
    /\ URL_hostname rt u = Some hostname
    /\ content = Banner.pageContent doc hostname
    /\ log' = (log ++ [Fetched u])%list.
Proof.
  unfold Banner.extractWebpageContent. run.
  destruct (fetch rt u) as [e|response]; [discriminate|].
  destruct (ok response) eqn:Hok; cbn [negb]; [|discriminate].
  destruct (responseText response) as [e|html] eqn:Hhtml; [discriminate|].
  destruct (cheerio_load rt html) as [e|doc] eqn:Hdoc; [discriminate|].
  destruct (URL_hostname rt u) as [hostname|] eqn:Hurl; [|discriminate].
  intros [= <- <-]. exists response, html, doc, hostname. repeat split; assumption.
Qed.

Lemma extract_run u log response html doc hostname :
  fetch rt u = inr response -> ok response = true ->
  responseText response = inr html ->
  cheerio_load rt html = inr doc ->
  URL_hostname rt u = Some hostname ->
  Banner.extractWebpageContent rt u log
  = (Return (Banner.pageContent doc hostname), (log ++ [Fetched u])%list).
Proof.
  intros Hf Hok Hhtml Hdoc Hurl. unfold Banner.extractWebpageContent. run.
  rewrite Hf, Hok. cbn [negb]. now rewrite Hhtml, Hdoc, Hurl.
Qed.

(** X12.  The extraction returns a content exactly when the fetch resolves
    with a success status, the text can be read and the document loaded;
    the content is then what is read off that document, and the run has
    made the one fetch and written nothing to the console. *)
Theorem extraction_succeeds_iff u log content log' :
  Banner.extractWebpageContent rt u log = (Return content, log')
  <-> exists response html doc hostname,
        fetch rt u = inr response /\ ok response = true
        /\ responseText response = inr html
        /\ cheerio_load rt html = inr doc
        /\ URL_hostname rt u = Some hostname
        /\ content = Banner.pageContent doc hostname
        /\ log' = (log ++ [Fetched u])%list.
Proof.
  split; [apply extract_inv|].
  intros (response & html & doc & hostname & Hf & Hok & Hhtml & Hdoc & Hurl & -> & ->).
  now apply extract_run with response html.
Qed.

(** X13.  Every result the handler produces comes with status 200, has a
    non-empty title of at most 100 code units, a non-empty description of
    at most 200, at most 10 keywords, and an [svgContent] that starts with
    an opening tag and ends with a closing tag; the run that produced it
    made exactly one fetch followed by one generation call and wrote
    nothing to the console. *)
Theorem result_invariants env event log resp log' result :
  Banner.handler rt env event log = (Return resp, log') ->
  Response.body resp = ResultBody result ->
  Response.statusCode resp = 200
  /\ AnalysisResult.title result <> EmptyString
  /\ String.length (AnalysisResult.title result) <= 100
  /\ AnalysisResult.description result <> EmptyString
  /\ String.length (AnalysisResult.description result) <= 200
  /\ List.length (AnalysisResult.keywords result) <= 10
  /\ Artifact.isFragment (AnalysisResult.svgContent result)
  /\ exists u content t, log' = (log ++ [Fetched u; Generated content t])%list.
Proof.
  intros Hrun Hbody.
  assert (Hstatus : Response.statusCode resp = 200).
  { destruct (handler_run rt env event log) as (status & body & delta & H & Ha & _).
    rewrite Hrun in H. injection H as -> _. cbn in Hbody. subst body. cbn.
    destruct Ha as [[-> _] | [[_ [H | H]] | [[_ H] | [_ [m H]]]]];
      try reflexivity; discriminate. }
  destruct (handler_result_inv _ _ _ _ _ _ _ Hrun Hbody)
    as (parsed & _ & _ & _ & Hval).
  destruct (validated_result_inv _ _ _ _ _ _ Hval Hbody)
    as (u & t & content & log1 & colors & svg & _ & _ & Hx & _ & Hg & ->).
  destruct (extract_inv _ _ _ _ Hx) as (_ & _ & doc & hostname & _ & _ & _ & _ & _ & -> & ->).
  destruct (generate_inv _ _ _ _ _ _ Hg) as (blocks & raw & _ & _ & Hm & ->).
  destruct (content_bounds doc hostname) as (B1 & B2 & B3 & B4 & B5 & _).
  cbn [AnalysisResult.title AnalysisResult.description AnalysisResult.keywords
       AnalysisResult.svgContent].
  repeat split; try assumption.
  - exact (svgMatch_shape _ _ Hm).
  - exists u, (Banner.pageContent doc hostname), t. now rewrite <- app_assoc.
Qed.

(** X14.  When the template converts to a key that is not in the palette
    table (nor a name every object inherits), a page with exactly one
    extracted color makes the handler answer 500 before any generation call,
    because index 1 of the missing palette is read; a page with no extracted
    color gives a 200 result whose [colors] is undefined. *)
Theorem undeclared_template env event parsed u t hostname content log log1 :
  HandlerEvent.httpMethod event = "POST" ->
  Banner.credentialMissing env = false ->
  JSON_parse rt (Banner.bodyText event) = inr parsed ->
  Value.get parsed "url" = Some u ->
  Value.get parsed "template" = Some t ->
  Value.truthy u = true ->
  Value.truthy t = true ->
  URL_hostname rt u = Some hostname ->
  Banner.extractWebpageContent rt u log = (Return content, log1) ->
  Banner.paletteMember rt t = Some Banner.UndefinedMember ->
  (forall color, WebpageContent.extractedColors content = [color] ->
   Banner.handler rt env event log
   = (Return
        (Banner.respond 500
           (ErrorBody "Internal server error"
              (Some (TypeError_message rt "undefined[1]")))),
      (log1 ++ [ConsoleError "Function error:"
                  (JsError (TypeError_message rt "undefined[1]"))])%list))
  /\ (WebpageContent.extractedColors content = [] ->
      forall blocks raw fragment,
        messages_create rt content t = inr blocks ->
        Banner.firstBlockText blocks = Some raw ->
        Svg.svgMatch raw = Some fragment ->
        Banner.handler rt env event log
        = (Return
             (Banner.respond 200
                (ResultBody
                   {| AnalysisResult.title := WebpageContent.title content;
                      AnalysisResult.description := WebpageContent.description content;
                      AnalysisResult.colors := ColorsUndefined;
                      AnalysisResult.keywords := WebpageContent.keywords content;
                      AnalysisResult.svgContent := fragment |})),
           (log1 ++ [Generated content t])%list)).
Proof.
  intros Hpost Hcred Hparse Hu Ht Htu Htt Hurl Hx Hpal.
  assert (Hrun : Banner.handler rt env event log
                 = Eff.tryCatch
                     (Eff.bind
                        (Banner.resolveColors rt t
                           (WebpageContent.extractedColors content))
                        (fun colors =>
                           Eff.bind (Banner.generateBannerWithAI rt content t)
                             (fun svgContent =>
                                Eff.ret
                                  (Banner.respond 200
                                     (ResultBody
                                        {| AnalysisResult.title :=
                                             WebpageContent.title content;
                                           AnalysisResult.description :=
                                             WebpageContent.description content;
                                           AnalysisResult.colors := colors;
                                           AnalysisResult.keywords :=
                                             WebpageContent.keywords content;
                                           AnalysisResult.svgContent := svgContent |})))))
                     Banner.failed log1).
  { rewrite (handler_parsed _ _ _ _ _ Hpost Hcred Hparse (get_Some_not_null _ _ _ Hu)).
    unfold Banner.validated. rewrite Hu, Ht, Htu, Htt, Hurl. cbn [negb orb].
    unfold Eff.tryCatch. unfold Eff.bind at 1. now rewrite Hx. }
  rewrite Hrun. unfold Banner.resolveColors. rewrite Hpal. split.
  - intros color ->. reflexivity.
  - intros -> blocks raw fragment Hc Hf Hm. cbn [List.length Nat.leb Nat.eqb].
    unfold Eff.tryCatch, Eff.bind, Eff.ret at 1.
    unfold Banner.paletteMember in Hpal.
    destruct (Value.toString (Number_toString rt) t) as [key|] eqn:Hkey;
      [|discriminate].
    rewrite (generate_run _ _ _ _ _ _ _ Hkey Hc Hf), Hm. reflexivity.
Qed.

(** X21.  A template that cannot be converted to a property key (a parsed
    object that holds a [toString] field, or an array with such an item)
    stops the request where the palette table is indexed: whatever the page
    and however many colors were extracted, the handler answers 500 with the
    TypeError of the conversion, after the fetch and without any generation
    call. *)
Theorem unconvertible_template env event parsed u t hostname content log log1 :
  HandlerEvent.httpMethod event = "POST" ->
  Banner.credentialMissing env = false ->
  JSON_parse rt (Banner.bodyText event) = inr parsed ->
  Value.get parsed "url" = Some u ->
  Value.get parsed "template" = Some t ->
  Value.truthy u = true ->
  Value.truthy t = true ->
  URL_hostname rt u = Some hostname ->
  Banner.extractWebpageContent rt u log = (Return content, log1) ->
  Value.toString (Number_toString rt) t = None ->
  Banner.handler rt env event log
  = (Return
       (Banner.respond 500
          (ErrorBody "Internal server error"
             (Some (TypeError_message rt "template to key")))),
     ((log ++ [Fetched u])
        ++ [ConsoleError "Function error:"
              (JsError (TypeError_message rt "template to key"))])%list).
Proof.
  intros Hpost Hcred Hparse Hu Ht Htu Htt Hurl Hx Hkey.
  destruct (extract_inv _ _ _ _ Hx) as (_ & _ & _ & _ & _ & _ & _ & _ & _ & _ & Hlog).
  subst log1.
  rewrite (handler_parsed _ _ _ _ _ Hpost Hcred Hparse (get_Some_not_null _ _ _ Hu)).
  unfold Banner.validated. rewrite Hu, Ht, Htu, Htt, Hurl. cbn [negb orb].
  unfold Eff.tryCatch. unfold Eff.bind at 1. rewrite Hx.
  unfold Eff.bind at 1. rewrite (resolveColors_unconvertible _ _ _ _ Hkey).
  reflexivity.
Qed.

(** An object with its own [toString] field has no string form, at any
    depth of an array; without one it prints as every plain object does. *)
Lemma toString_own_toString numberToString fields value :
  Value.getOwn fields "toString" = Some value ->
  Value.toString numberToString (JObj fields) = None
  /\ Value.toString numberToString (JArr [JObj fields]) = None.
Proof. intros H. cbn. now rewrite H. Qed.

Lemma toString_plain_object numberToString fields :
  Value.getOwn fields "toString" = None ->
  Value.toString numberToString (JObj fields) = Some "[object Object]".
Proof. intros H. cbn. now rewrite H. Qed.

End PipelineFacts.

(** ** The earlier variant's colors *)

Section LegacyFacts.

Lemma setInsertAll_fresh (a seen : list string) :
  NoDup a -> (forall x, In x a -> ~ In x seen) -> Js.setInsertAll seen a = a.
Proof.
  revert seen. induction a as [|x a IH]; intros seen Hnd Hfresh; [reflexivity|].
  inversion Hnd as [|? ? Hx Ha]; subst. simpl.
  destruct (Js.includes seen x) eqn:Hin.
  - apply includes_In in Hin. exfalso. apply (Hfresh x); [now left | assumption].
  - f_equal. apply IH; [assumption|].
    intros y Hy [<- | Hs]; [contradiction|].
    apply (Hfresh y); [now right | assumption].
Qed.

Lemma filter_all {A} (f : A -> bool) (l : list A) :
  (forall x, In x l -> f x = true) -> filter f l = l.
Proof.
  induction l as [|x l IH]; intros H; [reflexivity|]. simpl.
  rewrite (H x (or_introl eq_refl)). f_equal. apply IH.
  intros y Hy. apply H. now right.
Qed.

End LegacyFacts.

(** X15.  On a style text with at most three color tokens, all different
    and none on the blocklist, both variants extract the same colors: the
    tokens in the order they occur. *)
Theorem variants_agree_on_plain_styles (styleContent : string) (matches : list string) :
  Colors.colorMatches styleContent = Some matches ->
  NoDup matches ->
  (forall color, In color matches ->
                 Js.includes Colors.blocklist (Js.toLowerCase color) = false) ->
  List.length matches <= 3 ->
  Colors.extractedColors styleContent = matches
  /\ Legacy.extractedColors styleContent = matches.
Proof.
  intros Hm Hnd Hblock Hlen.
  unfold Colors.extractedColors, Legacy.extractedColors. rewrite Hm. cbn [app].
  unfold Colors.uniqueColors, Js.newSetSpread, Js.slice0. split.
  - rewrite setInsertAll_fresh by (assumption || (intros x _ [])).
    rewrite filter_all by (intros x Hx; now rewrite (Hblock x Hx)).
    apply firstn_all2. exact Hlen.
  - apply firstn_all2. lia.
Qed.

(** X16.  In the earlier variant the extraction keeps the first five tokens
    as they come, and the colors of a result are those when there is any
    (one to five colors, the template not being looked at).  When there is
    none the table of defaults is indexed with the template as the request
    gave it: a template that converts to one of the four names gives that
    template's five defaults; one that converts to any other key that
    objects do not inherit gives no colors at all ([undefined]); one that
    cannot be converted throws. *)
Theorem legacy_colors (rt : Runtime) (template : JsValue) (styleContent : string) :
  let extracted := Legacy.extractedColors styleContent in
  let colors := Legacy.resolveColors rt template extracted in
  extracted = firstn 5 (Colors.scan 0 styleContent)
  /\ List.length extracted <= 5
  /\ (extracted <> [] -> colors = inr (ColorArray (map Some extracted)))
  /\ (extracted = [] ->
      (forall t, Value.toString (Number_toString rt) template = Some (templateName t) ->
                 colors = inr (ColorArray (map Some (Legacy.defaultColors t)))
                 /\ List.length (Legacy.defaultColors t) = 5)
      /\ (forall key, Value.toString (Number_toString rt) template = Some key ->
                      templateOfKey key = None ->
                      Object_prototype_has rt key = false ->
                      colors = inr ColorsUndefined)
      /\ (Value.toString (Number_toString rt) template = None ->
          colors = inl (JsError (TypeError_message rt "template to key")))).
Proof.
  cbv zeta.
  assert (He : Legacy.extractedColors styleContent
               = firstn 5 (Colors.scan 0 styleContent)).
  { unfold Legacy.extractedColors, Colors.colorMatches, Js.slice0.
    destruct (Colors.scan 0 styleContent); reflexivity. }
  split; [exact He|].
  assert (Hlen : List.length (Legacy.extractedColors styleContent) <= 5).
  { rewrite He. apply firstn_le_length. }
  split; [exact Hlen|].
  unfold Legacy.resolveColors, Js.slice0.
  destruct (Legacy.extractedColors styleContent) as [|c rest] eqn:Hx.
  - split; [congruence|]. intros _. cbn [List.length Nat.ltb Nat.leb].
    split; [|split].
    + intros t ->. destruct t; split; reflexivity.
    + intros key -> -> ->. reflexivity.
    + intros ->. reflexivity.
  - split; [|discriminate]. intros _. cbn [List.length Nat.ltb Nat.leb].
    now rewrite firstn_all2 by exact Hlen.
Qed.

(** ** The further properties on concrete inputs *)

Lemma description_chain_witness :
  WebpageContent.description (Banner.pageContent Fixture.examplePage "example.com")
  = "Hello world and more.".
Proof.
  apply (proj1 (proj2 (proj2
           (description_chain Fixture.examplePage "example.com"))));
    [left; reflexivity | left; reflexivity | discriminate].
Defined.

Lemma keywords_trimmed_and_capped_witness :
  WebpageContent.keywords (Banner.pageContent Fixture2.oneColorPage "one.example")
  = firstn 10 (map Js.trim (Js.split "," " ai , tools,ai "))
  /\ List.length
       (WebpageContent.keywords (Banner.pageContent Fixture2.oneColorPage "one.example"))
     = Nat.min 10
         (S (count_occ ascii_dec (list_ascii_of_string " ai , tools,ai ") ","%char)).
Proof.
  apply (proj2 (proj2
           (keywords_trimmed_and_capped Fixture2.oneColorPage "one.example")));
    [reflexivity | discriminate].
Defined.

Lemma domain_removes_first_www_witness :
  WebpageContent.domain (Banner.pageContent Fixture.examplePage "api.www.example.com")
  = "api." ++ "example.com".
Proof.
  apply (proj2 (domain_removes_first_www Fixture.examplePage "api.www.example.com")
           "api." "example.com"); [reflexivity|].
  intros b1 b2 H Hne.
  destruct b1 as [|c1 [|c2 [|c3 [|c4 [|c5 b1]]]]]; cbn in H;
    repeat match goal with
           | E : String _ _ = String _ _ |- _ => injection E as ? E
           end;
    subst; try reflexivity; try congruence; discriminate.
Defined.

Lemma extracted_colors_are_literals_witness :
  (Literal.isHex "#10B981" \/ Literal.isFunctional "#10B981")
  /\ exists before after, "a{color:#10B981}" = before ++ "#10B981" ++ after.
Proof.
  apply (extracted_colors_are_literals "a{color:#10B981}" "#10B981").
  left. reflexivity.
Defined.

Lemma fragment_survives_wrapping_witness :
  Svg.svgMatch
    ("```svg
" ++ "<svg viewBox='0 0 1200 630'><text>Hi</text></SVG>" ++ "
```
Here is your banner.")
  = Some "<svg viewBox='0 0 1200 630'><text>Hi</text></SVG>".
Proof.
  apply fragment_survives_wrapping; [|reflexivity|reflexivity].
  exists "<svg", " viewBox='0 0 1200 630'><text>Hi</text>", "</SVG>".
  repeat split.
Defined.

Lemma svgMatch_returns_fragment_witness :
  Artifact.isFragment "<svg>1</svg>b<svg>2</svg>"
  /\ Svg.svgMatch "<svg>1</svg>b<svg>2</svg>" = Some "<svg>1</svg>b<svg>2</svg>".
Proof.
  apply (svgMatch_returns_fragment "a<svg>1</svg>b<svg>2</svg>c"). reflexivity.
Defined.

Lemma result_invariants_witness :
  Response.statusCode (Banner.respond 200 (ResultBody Fixture.colorsResult)) = 200
  /\ AnalysisResult.title Fixture.colorsResult <> EmptyString
  /\ String.length (AnalysisResult.title Fixture.colorsResult) <= 100
  /\ AnalysisResult.description Fixture.colorsResult <> EmptyString
  /\ String.length (AnalysisResult.description Fixture.colorsResult) <= 200
  /\ List.length (AnalysisResult.keywords Fixture.colorsResult) <= 10
  /\ Artifact.isFragment (AnalysisResult.svgContent Fixture.colorsResult)
  /\ exists u content t,
      [Fetched (JStr "https://colors.example");
       Generated (Banner.pageContent Fixture.ogPage "colors.example") (JStr "modern")]
      = ([] ++ [Fetched u; Generated content t])%list.
Proof.
  apply (result_invariants Fixture.runtime Fixture.withKey
           (Fixture.post [("url", "https://colors.example"); ("template", "modern")])
           []
           (Banner.respond 200 (ResultBody Fixture.colorsResult))
           [Fetched (JStr "https://colors.example");
            Generated (Banner.pageContent Fixture.ogPage "colors.example")
              (JStr "modern")]
           Fixture.colorsResult).
  - vm_compute. reflexivity.
  - reflexivity.
Defined.

Lemma undeclared_template_witness :
  Banner.handler Fixture2.runtime Fixture.withKey (Fixture.post Fixture2.body) []
  = (Return
       (Banner.respond 500
          (ErrorBody "Internal server error" (Some "TypeError: undefined[1]"))),
     [Fetched (JStr "https://one.example");
      ConsoleError "Function error:" (JsError "TypeError: undefined[1]")]).
Proof.
  pose proof (undeclared_template Fixture2.runtime Fixture.withKey
                (Fixture.post Fixture2.body) (Fixture.objectValue Fixture2.body)
                (JStr "https://one.example") (JStr "fancy") "one.example"
                (Banner.pageContent Fixture2.oneColorPage "one.example")
                [] [Fetched (JStr "https://one.example")]) as H.
  discharge H.
  exact (proj1 H "#10B981" eq_refl).
Defined.

Lemma unconvertible_template_witness :
  Banner.handler Fixture3.runtime Fixture.withKey Fixture3.postText []
  = (Return
       (Banner.respond 500
          (ErrorBody "Internal server error" (Some "TypeError: template to key"))),
     [Fetched (JStr "https://colors.example");
      ConsoleError "Function error:" (JsError "TypeError: template to key")]).
Proof.
  pose proof (unconvertible_template Fixture3.runtime Fixture.withKey
                Fixture3.postText Fixture3.unconvertibleValue
                (JStr "https://colors.example") Fixture3.unconvertible "colors.example"
                (Banner.pageContent Fixture.ogPage "colors.example")
                [] [Fetched (JStr "https://colors.example")]) as H.
  discharge H.
  exact H.
Defined.

Lemma variants_agree_on_plain_styles_witness :
  Colors.extractedColors "a{color:#10B981;background:rgb(1, 2, 3)}"
  = ["#10B981"; "rgb(1, 2, 3)"]
  /\ Legacy.extractedColors "a{color:#10B981;background:rgb(1, 2, 3)}"
     = ["#10B981"; "rgb(1, 2, 3)"].
Proof.
  apply (variants_agree_on_plain_styles
           "a{color:#10B981;background:rgb(1, 2, 3)}" ["#10B981"; "rgb(1, 2, 3)"]).
  - reflexivity.
  - repeat constructor; cbn; intuition discriminate.
  - intros color [<- | [<- | []]]; reflexivity.
  - cbn. lia.
Defined.

(** ** The page *)

Section PageFacts.

Variable server : string -> Template -> App.Exchange.
Variable validUrl : string -> bool.

Lemma settle_cases fallback exchange st :
  (exists result,
      exchange = App.Ok (inr result)
      /\ App.settle fallback exchange st
         = App.setSvgContent (AnalysisResult.svgContent result)
             (App.setAnalysisResult (Some result) st))
  \/ (exists text,
         App.settle fallback exchange st = App.setError (Some text) st).
Proof.
  destruct exchange as [e | [e | message] | [e | result]]; cbn [App.settle];
    try (right; eexists; reflexivity).
  left. now exists result.
Qed.

(** X17.  However the exchange with the function ends, [analyzeUrl] sends
    one request, for the given URL and the selected template, and leaves
    [isAnalyzing] false; either the answer was a result, which is then shown
    with no error, or an error text is set and the result and the banner
    shown before stay as they were. *)
Theorem analyzeUrl_settles inputUrl st :
  let after := fst (App.analyzeUrl server inputUrl st) in
  snd (App.analyzeUrl server inputUrl st) = [(inputUrl, App.selectedTemplate st)]
  /\ App.isAnalyzing after = false
  /\ App.url after = App.url st
  /\ App.selectedTemplate after = App.selectedTemplate st
  /\ App.isGenerating after = App.isGenerating st
  /\ ((exists result,
          server inputUrl (App.selectedTemplate st) = App.Ok (inr result)
          /\ App.error after = None
          /\ App.analysisResult after = Some result
          /\ App.svgContent after = AnalysisResult.svgContent result)
      \/ (exists text,
             App.error after = Some text
             /\ App.analysisResult after = App.analysisResult st
             /\ App.svgContent after = App.svgContent st)).
Proof.
  cbv zeta. unfold App.analyzeUrl. cbn [fst snd].
  destruct (settle_cases "Failed to analyze URL"
              (server inputUrl (App.selectedTemplate st))
              (App.setError None (App.setIsAnalyzing true st)))
    as [(result & Hx & ->) | (text & ->)]; repeat split.
  - left. exists result. repeat split. exact Hx.
  - right. exists text. repeat split.
Qed.

(** X18.  [regenerateBanner] does nothing at all while the URL field is
    empty; otherwise it sends one request for the URL and the template of
    the state and leaves [isGenerating] false, with either the new result
    shown and no error, or an error text and the previous result and banner
    untouched. *)
Theorem regenerateBanner_settles st :
  let after := fst (App.regenerateBanner server st) in
  (App.url st = EmptyString ->
   App.regenerateBanner server st = (st, []))
  /\ (App.url st <> EmptyString ->
      snd (App.regenerateBanner server st) = [(App.url st, App.selectedTemplate st)]
      /\ App.isGenerating after = false
      /\ App.isAnalyzing after = App.isAnalyzing st
      /\ ((exists result,
              server (App.url st) (App.selectedTemplate st) = App.Ok (inr result)
              /\ App.error after = None
              /\ App.analysisResult after = Some result
              /\ App.svgContent after = AnalysisResult.svgContent result)
          \/ (exists text,
                 App.error after = Some text
                 /\ App.analysisResult after = App.analysisResult st
                 /\ App.svgContent after = App.svgContent st))).
Proof.
  cbv zeta. unfold App.regenerateBanner. split.
  - intros ->. reflexivity.
  - intros Hurl. destruct (App.url st) as [|c rest] eqn:Hu; [congruence|].
    cbn [Js.truthy negb fst snd].
    destruct (settle_cases "Failed to generate banner"
                (server (String c rest) (App.selectedTemplate st))
                (App.setError None (App.setIsGenerating true st)))
      as [(result & Hx & ->) | (text & ->)]; repeat split.
    + left. exists result. repeat split. exact Hx.
    + right. exists text. repeat split.
Qed.

(** X19.  Submitting the form sends a request only for a URL that is not
    empty and that the URL constructor accepts, and then exactly one, for
    that URL and the selected template; an empty URL changes nothing, and a
    URL that is rejected only sets the error "Please enter a valid URL". *)
Theorem handleUrlSubmit_sends_valid_urls_only st :
  (snd (App.handleUrlSubmit server validUrl st) = []
   \/ (snd (App.handleUrlSubmit server validUrl st)
       = [(App.url st, App.selectedTemplate st)]
       /\ App.url st <> EmptyString /\ validUrl (App.url st) = true))
  /\ (App.url st = EmptyString -> App.handleUrlSubmit server validUrl st = (st, []))
  /\ (App.url st <> EmptyString -> validUrl (App.url st) = false ->
      App.handleUrlSubmit server validUrl st
      = (App.setError (Some "Please enter a valid URL") st, [])).
Proof.
  unfold App.handleUrlSubmit. repeat split.
  - destruct (App.url st) as [|c rest] eqn:Hu; cbn [Js.truthy]; [now left|].
    destruct (validUrl (String c rest)) eqn:Hv; [|now left].
    right. rewrite <- Hu. repeat split. congruence.
  - intros ->. reflexivity.
  - intros Hne Hv. destruct (App.url st); [congruence|].
    cbn [Js.truthy]. now rewrite Hv.
Qed.

End PageFacts.

(** X20.  Whatever the handler answers, the page can read it; for the
    handler's 400 and 405 answers the page shows its own fallback text,
    because those bodies have an [error] field and no [message]; for a 500
    answer it shows the handler's message (the fallback when that is empty);
    in both cases the result and the banner shown before stay; for a result
    it shows the result. *)
Theorem handler_answer_in_the_page
  (rt : Runtime) env event log resp log' jsonError fallback (st : App.State) :
  Banner.handler rt env event log = (Return resp, log') ->
  exists exchange,
    App.exchangeOf jsonError resp = Some exchange
    /\ (Response.statusCode resp = 400 \/ Response.statusCode resp = 405 ->
        App.settle fallback exchange st = App.setError (Some fallback) st)
    /\ (Response.statusCode resp = 500 ->
        exists message,
          Response.body resp = ErrorBody "Internal server error" (Some message)
          /\ App.settle fallback exchange st
             = App.setError
                 (Some (if Js.truthy message then message else fallback)) st)
    /\ (forall result, Response.body resp = ResultBody result ->
        App.settle fallback exchange st
        = App.setSvgContent (AnalysisResult.svgContent result)
            (App.setAnalysisResult (Some result) st)).
Proof.
  intros Hrun.
  destruct (handler_run rt env event log) as (status & body & delta & H & Ha & _).
  rewrite Hrun in H. injection H as -> _.
  unfold App.exchangeOf. cbn [Response.statusCode Response.body Banner.respond].
  destruct Ha as [[-> [-> | [result ->]]]
                 | [[-> [-> | ->]] | [[-> ->] | [-> [message ->]]]]];
    cbn [Nat.leb andb]; eexists; (split; [reflexivity|]);
    repeat split; try (intros [? | ?]; discriminate); try discriminate;
    try (intros; reflexivity).
  - intros r [= <-]. reflexivity.
  - intros _. exists message. split; [reflexivity|].
    cbn [App.settle Banner.firstTruthy]. now destruct message.
Qed.

Lemma handler_answer_in_the_page_witness :
  exists exchange,
    App.exchangeOf (JsError "Unexpected end of JSON input")
      (Banner.respond 400 (ErrorBody "Invalid URL provided" None))
    = Some exchange
    /\ App.settle "Failed to analyze URL" exchange App.initial
       = App.setError (Some "Failed to analyze URL") App.initial.
Proof.
  destruct (handler_answer_in_the_page Fixture.runtime Fixture.withKey
              (Fixture.post [("url", "not a url"); ("template", "modern")]) []
              (Banner.respond 400 (ErrorBody "Invalid URL provided" None)) []
              (JsError "Unexpected end of JSON input") "Failed to analyze URL"
              App.initial eq_refl)
    as (exchange & Hx & H400 & _).
  exists exchange. split; [exact Hx|]. apply H400. left. reflexivity.
Defined.

Lemma regenerateBanner_settles_witness :
  App.regenerateBanner (fun _ _ => App.FetchRejected (JsError "Failed to fetch"))
    App.initial
  = (App.initial, []).
Proof.
  apply (proj1 (regenerateBanner_settles
                  (fun _ _ => App.FetchRejected (JsError "Failed to fetch"))
                  App.initial)).
  reflexivity.
Defined.

Lemma handleUrlSubmit_sends_valid_urls_only_witness :
  App.handleUrlSubmit (fun _ _ => App.FetchRejected (JsError "Failed to fetch"))
    (fun u => prefix "https://" u)
    (App.setError None
       {| App.url := "not a url"; App.isAnalyzing := false;
          App.analysisResult := None; App.selectedTemplate := bold;
          App.isGenerating := false; App.svgContent := EmptyString;
          App.error := None |})
  = (App.setError (Some "Please enter a valid URL")
       {| App.url := "not a url"; App.isAnalyzing := false;
          App.analysisResult := None; App.selectedTemplate := bold;
          App.isGenerating := false; App.svgContent := EmptyString;
          App.error := None |},
     []).
Proof.
  apply (proj2 (proj2 (handleUrlSubmit_sends_valid_urls_only
                         (fun _ _ => App.FetchRejected (JsError "Failed to fetch"))
                         (fun u => prefix "https://" u)
                         (App.setError None
                            {| App.url := "not a url"; App.isAnalyzing := false;
                               App.analysisResult := None;
                               App.selectedTemplate := bold;
                               App.isGenerating := false;
                               App.svgContent := EmptyString;
                               App.error := None |}))));
    [discriminate | reflexivity].
Defined.

Lemma legacy_colors_witness :
  Legacy.resolveColors Fixture.runtime (JStr "bold")
    (Legacy.extractedColors "a{color:#000;color:#000}")
  = inr (ColorArray [Some "#000"; Some "#000"])
  /\ Legacy.resolveColors Fixture.runtime (JStr "bold") (Legacy.extractedColors "a{}")
     = inr (ColorArray
              [Some "#E74C3C"; Some "#3498DB"; Some "#2ECC71"; Some "#F39C12";
               Some "#9B59B6"])
  /\ Legacy.resolveColors Fixture.runtime (JStr "fancy") (Legacy.extractedColors "a{}")
     = inr ColorsUndefined
  /\ Legacy.resolveColors Fixture.runtime Fixture3.unconvertible
       (Legacy.extractedColors "a{}")
     = inl (JsError "TypeError: template to key").
Proof.
  split; [|split; [|split]].
  - rewrite (proj1 (proj2 (proj2 (legacy_colors Fixture.runtime (JStr "bold")
                                    "a{color:#000;color:#000}"))));
      [reflexivity | discriminate].
  - exact (proj1 (proj1 (proj2 (proj2 (proj2 (legacy_colors Fixture.runtime (JStr "bold")
                                                 "a{}"))) eq_refl) bold eq_refl)).
  - exact (proj1 (proj2 (proj2 (proj2 (proj2 (legacy_colors Fixture.runtime (JStr "fancy")
                                                 "a{}"))) eq_refl)) "fancy"
             eq_refl eq_refl eq_refl).
  - exact (proj2 (proj2 (proj2 (proj2 (proj2 (legacy_colors Fixture.runtime
                                                 Fixture3.unconvertible "a{}"))) eq_refl))
             eq_refl).
Defined.
